(** * RexxFunctions: a shallow embedding of the REXX compatibility shim

    The development follows [PythonTools/RexxFunctions.py] (the current
    class), [PythonTools/RexxFunctions_old2.py] and [PythonTools/linein.py]
    (the earlier line reader).  Python integers are [Z], Python [str] values
    are [string], the [_file_positions] dictionary is a [gmap string Z], and
    the file system, the two output streams and the three ways a call can end
    ([return], [sys.exit], an uncaught exception) are explicit. *)

From Stdlib Require Import ZArith Ascii String Lia.
From stdpp Require Import base option gmap strings list.

Local Open Scope Z_scope.
#[local] Set Warnings "-clear-no-such-hyp".

(** ** Python strings and slices *)

Module PyStr.

Definition len (s : string) : Z := Z.of_nat (String.length s).

Fixpoint take (n : nat) (s : string) : string :=
  match n, s with
  | O, _ => ""
  | S _, EmptyString => ""
  | S n', String c s' => String c (take n' s')
  end.

Fixpoint drop (n : nat) (s : string) : string :=
  match n, s with
  | O, _ => s
  | S _, EmptyString => ""
  | S n', String _ s' => drop n' s'
  end.

(** One bound of [s[lo:hi]]: a negative bound counts from the end, and the
    result is clipped to [0 .. len s]. *)
Definition bound (n : Z) (i : Z) : Z :=
  let j := if i <? 0 then i + n else i in
  if j <? 0 then 0 else if n <? j then n else j.

(** [s[lo:hi]]; an omitted bound is [None]. *)
Definition slice (s : string) (lo hi : option Z) : string :=
  let n := len s in
  let a := from_option (bound n) 0 lo in
  let b := from_option (bound n) n hi in
  take (Z.to_nat (b - a)) (drop (Z.to_nat a) s).

(** [s.rstrip(c)] for a one-character argument. *)
Fixpoint rstrip (c : ascii) (s : string) : string :=
  match s with
  | EmptyString => ""
  | String a s' =>
      match rstrip c s' with
      | EmptyString => if Ascii.eqb a c then "" else String a ""
      | r => String a r
      end
  end.

(** [c in s] for a character. *)
Fixpoint mem (c : ascii) (s : string) : bool :=
  match s with
  | EmptyString => false
  | String a s' => Ascii.eqb a c || mem c s'
  end.

End PyStr.

(** ** How a call ends *)

Inductive pyexn :=
| ValueError (msg : string).

Inductive outcome (A : Type) :=
| Return (v : A)
| Exit (status : Z)
| Raise (e : pyexn).
Arguments Return {A} v.
Arguments Exit {A} status.
Arguments Raise {A} e.

(** [if length:] on an optional integer: [None] and [0] are false. *)
Definition truthy (length : option Z) : bool :=
  match length with
  | Some n => negb (n =? 0)
  | None => false
  end.

(** ** String functions of [RexxFunctions.py] *)

Definition substr (s : string) (start : Z) (length : option Z) : outcome string :=
  if start <? 1 then Raise (ValueError "Start position must be ≥ 1")
  else if truthy length
       then Return (PyStr.slice s (Some (start - 1))
                      (Some (start - 1 + from_option id 0 length)))
       else Return (PyStr.slice s (Some (start - 1)) None).

Definition delstr (s : string) (start : Z) (length : option Z) : outcome string :=
  if start <? 1 then Raise (ValueError "Start position must be ≥ 1")
  else Return (PyStr.slice s None (Some (start - 1)) +:+
               (if truthy length
                then PyStr.slice s (Some (start - 1 + from_option id 0 length)) None
                else "")).

Definition insert (new_str original_str : string) (position : Z) : string :=
  let position := if position <? 1 then 1 else position in
  PyStr.slice original_str None (Some (position - 1)) +:+ new_str +:+
  PyStr.slice original_str (Some (position - 1)) None.


(** ** Text files

    A regular file holds a [string].  Opened with [open(path, 'r')] it is read
    in text mode with universal newlines: a line ends at a line feed, at a
    carriage return or at the pair of both, and each of these reaches the
    program as one line feed.  Written in text mode on a POSIX host a line
    feed is stored as it is. *)

Module PyFile.

Definition LF : ascii := "010"%char.
Definition CR : ascii := "013"%char.
Definition nl : string := String LF "".

(** The lines the iteration [for ... in file] yields, terminators kept. *)
Fixpoint lines (s : string) : list string :=
  match s with
  | EmptyString => []
  | String c rest =>
      if Ascii.eqb c LF then nl :: lines rest
      else if Ascii.eqb c CR then
        match rest with
        | String c' rest' =>
            if Ascii.eqb c' LF then nl :: lines rest' else nl :: lines rest
        | EmptyString => [nl]
        end
      else
        match lines rest with
        | [] => [String c ""]
        | l :: ls => String c l :: ls
        end
  end.

End PyFile.

(** ** The file system and the output streams *)

Inductive access := Granted | Denied | Faulty.

Inductive node :=
| Directory
| Regular (acc : access) (content : string).

Inductive oserror :=
| FileNotFoundError
| IsADirectoryError
| PermissionError
| OSError.

(** [str(e)] of an [OSError] raised for [path]. *)
Definition strerror (e : oserror) (path : string) : string :=
  match e with
  | FileNotFoundError => "[Errno 2] No such file or directory: '" +:+ path +:+ "'"
  | IsADirectoryError => "[Errno 21] Is a directory: '" +:+ path +:+ "'"
  | PermissionError => "[Errno 13] Permission denied: '" +:+ path +:+ "'"
  | OSError => "[Errno 5] Input/output error: '" +:+ path +:+ "'"
  end.

(** [nodes] maps absolute paths to what is there.  [locked] holds the paths
    whose directory entry the process may neither create nor remove.  The
    working directory is absolute, so the record keeps what follows its
    leading separator.  Paths are in the normal form of [pathlib] (no doubled
    separator, no dot component), on which [Path(...)] changes nothing. *)
Record world := World {
  cwd_tail : string;
  nodes : gmap string node;
  locked : gset string;
  stdout : list string;
  stderr : list string
}.

(** [os.getcwd()] *)
Definition cwd (w : world) : string := String "/" (cwd_tail w).

Definition is_absolute (p : string) : bool :=
  match p with
  | String c _ => Ascii.eqb c "/"%char
  | EmptyString => false
  end.

(** [str(Path(p).absolute())] *)
Definition absolute (w : world) (p : string) : string :=
  if is_absolute p then p else cwd w +:+ "/" +:+ p.

Definition set_nodes (w : world) (m : gmap string node) : world :=
  World (cwd_tail w) m (locked w) (stdout w) (stderr w).

Definition print_out (w : world) (msg : string) : world :=
  World (cwd_tail w) (nodes w) (locked w) (stdout w ++ [msg]) (stderr w).

Definition print_err (w : world) (msg : string) : world :=
  World (cwd_tail w) (nodes w) (locked w) (stdout w) (stderr w ++ [msg]).

(** [open(p, 'r')] followed by reading the text. *)
Definition open_read (w : world) (p : string) : oserror + string :=
  match nodes w !! absolute w p with
  | None => inl FileNotFoundError
  | Some Directory => inl IsADirectoryError
  | Some (Regular Granted content) => inr content
  | Some (Regular Denied _) => inl PermissionError
  | Some (Regular Faulty _) => inl OSError
  end.

(** [open(p, 'a' if append else 'w')], [write(data)] and close. *)
Definition open_write (w : world) (p : string) (append : bool) (data : string)
  : oserror + world :=
  let k := absolute w p in
  match nodes w !! k with
  | None =>
      if decide (k ∈ locked w) then inl PermissionError
      else inr (set_nodes w (<[k := Regular Granted data]> (nodes w)))
  | Some Directory => inl IsADirectoryError
  | Some (Regular Granted old) =>
      inr (set_nodes w
             (<[k := Regular Granted ((if append then old else "") +:+ data)]> (nodes w)))
  | Some (Regular Denied _) => inl PermissionError
  | Some (Regular Faulty _) => inl OSError
  end.

(** [Path.unlink()] *)
Definition unlink (w : world) (p : string) : oserror + world :=
  let k := absolute w p in
  match nodes w !! k with
  | None => inl FileNotFoundError
  | Some Directory => inl IsADirectoryError
  | Some (Regular _ _) =>
      if decide (k ∈ locked w) then inl PermissionError
      else inr (set_nodes w (delete k (nodes w)))
  end.

(** ** Values and the loop over the lines *)

Inductive pyval :=
| VStr (s : string)
| VInt (n : Z).

Definition FILE_NOT_FOUND : Z := 0xEEEEEEEE.
Definition END_OF_FILE : Z := 0xFFFFFFFF.

(** [for current_line, content in enumerate(file, 1): if current_line ==
    target_line: ...]: the first pair whose number is the target, if any. *)
Fixpoint scan (file : list string) (current_line target_line : Z)
  : option (Z * string) :=
  match file with
  | [] => None
  | content :: rest =>
      if current_line =? target_line then Some (current_line, content)
      else scan rest (current_line + 1) target_line
  end.

(** ** The class of [RexxFunctions.py] *)

Module RexxFunctions.

Record t := Make {
  _file_positions : gmap string Z;
  exit_on_error : bool;
  verbose : bool;
  next_record : Z
}.

(** [__init__] *)
Definition init (exit_on_error verbose : bool) : t :=
  Make ∅ exit_on_error verbose 0.

Definition set_position (self : t) (k : string) (v : Z) : t :=
  Make (<[k := v]> (_file_positions self)) (exit_on_error self) (verbose self)
       (next_record self).

Definition set_next_record (self : t) (v : Z) : t :=
  Make (_file_positions self) (exit_on_error self) (verbose self) v.

(** [if self.verbose: print(msg, file=sys.stderr)] *)
Definition report (self : t) (w : world) (msg : string) : world :=
  if verbose self then print_err w msg else w.

(** [if self.exit_on_error: sys.exit(1)] and otherwise [return v] *)
Definition fail {A} (self : t) (v : A) : outcome A :=
  if exit_on_error self then Exit 1 else Return v.

Definition linein (self : t) (w : world) (file_path : string)
    (line_number : option Z) (exit_on_eof : bool) : outcome pyval * t * world :=
  let path := absolute w file_path in
  match nodes w !! path with
  | None =>
      let w := report self w ("File does not exist: " +:+ path) in
      (fail self (VInt FILE_NOT_FOUND), self, w)
  | Some Directory =>
      let w := report self w ("Path is not a file: " +:+ path) in
      (fail self (VInt FILE_NOT_FOUND), self, w)
  | Some (Regular _ _) =>
      let file_key := path in
      let self :=
        match _file_positions self !! file_key with
        | None => set_position self file_key 0
        | Some _ => self
        end in
      let target_line :=
        match line_number with
        | None => (_file_positions self !!! file_key) + 1
        | Some n => n
        end in
      match open_read w path with
      | inr text =>
          match scan (PyFile.lines text) 1 target_line with
          | Some (current_line, content) =>
              let self := set_position self file_key current_line in
              let self := set_next_record self current_line in
              (Return (VStr (PyStr.rstrip PyFile.LF content)), self, w)
          | None =>
              let self :=
                match line_number with
                | None => set_position self file_key 0
                | Some _ => self
                end in
              if exit_on_eof && exit_on_error self then (Exit 0, self, w)
              else (Return (VInt END_OF_FILE), self, w)
          end
      | inl PermissionError =>
          let w := report self w ("Permission denied: " +:+ path) in
          (fail self (VInt FILE_NOT_FOUND), self, w)
      | inl e =>
          let w := report self w
                     ("Error reading file " +:+ path +:+ ": " +:+ strerror e path) in
          (fail self (VInt END_OF_FILE), self, w)
      end
  end.

Definition rm (self : t) (w : world) (file_path : string)
  : outcome Z * t * world :=
  let path := absolute w file_path in
  match nodes w !! path with
  | None =>
      let w := report self w ("File does not exist (not deleted): " +:+ path) in
      (Return FILE_NOT_FOUND, self, w)
  | Some _ =>
      match unlink w path with
      | inr w =>
          let w := if verbose self
                   then print_out w ("File successfully deleted: " +:+ path)
                   else w in
          (Return 0, self, w)
      | inl e =>
          let w := report self w
                     ("Error deleting file " +:+ path +:+ ": " +:+ strerror e path) in
          (fail self 1, self, w)
      end
  end.

Definition lineout (self : t) (w : world) (file_path : string) (s : string)
    (append : bool) : outcome Z * t * world :=
  match open_write w file_path append (s +:+ PyFile.nl) with
  | inr w => (Return 0, self, w)
  | inl e =>
      let w := report self w
                 ("Error writing to file " +:+ file_path +:+ ": "
                  +:+ strerror e file_path) in
      (fail self 1, self, w)
  end.

End RexxFunctions.

(** ** The earlier line reader

    [RexxFunctions_old2.py] and [linein.py] hold the same [linein]; they
    differ in the text printed for a missing file, which is the parameter
    [not_found].  The object has the dictionary as its only attribute. *)

Module Legacy.

Definition linein (not_found : string -> string)
    (_file_positions : gmap string Z) (w : world) (file_path : string)
    (line_number : option Z) : outcome pyval * gmap string Z * world :=
  let path := file_path in
  let _file_positions :=
    match _file_positions !! path with
    | None => <[path := 0]> _file_positions
    | Some _ => _file_positions
    end in
  let chosen : pyexn + gmap string Z * Z :=
    match line_number with
    | None =>
        let _file_positions :=
          <[path := (_file_positions !!! path) + 1]> _file_positions in
        inr (_file_positions, _file_positions !!! path)
    | Some n =>
        if n <? 1 then inl (ValueError "Line numbers must be ≥ 1")
        else inr (_file_positions, n)
    end in
  match chosen with
  | inl e => (Raise e, _file_positions, w)
  | inr (_file_positions, read_line) =>
      match open_read w file_path with
      | inr text =>
          match scan (PyFile.lines text) 1 read_line with
          | Some (_, line) =>
              (Return (VStr (PyStr.rstrip PyFile.LF line)), _file_positions, w)
          | None =>
              let _file_positions :=
                match line_number with
                | None => <[path := 0]> _file_positions
                | Some _ => _file_positions
                end in
              (Return (VInt END_OF_FILE), _file_positions, w)
          end
      | inl FileNotFoundError =>
          (Return (VInt FILE_NOT_FOUND), _file_positions,
           print_out w (not_found file_path))
      | inl _ => (Return (VInt END_OF_FILE), _file_positions, w)
      end
  end.

End Legacy.

Module RexxFunctions_old2.
Definition linein :=
  Legacy.linein (fun file_path => "File does not exist: " +:+ file_path).
End RexxFunctions_old2.

Module Linein_py.
Definition linein :=
  Legacy.linein (fun file_path => "file " +:+ file_path +:+ " not found...").
End Linein_py.

(** ** Sessions

    A script calls the three file operations one after the other on the same
    object.  A call that ends in [sys.exit] or in an uncaught exception ends
    the session. *)

Inductive call :=
| Linein (file_path : string) (line_number : option Z) (exit_on_eof : bool)
| Rm (file_path : string)
| Lineout (file_path : string) (s : string) (append : bool).

Definition int_result {S W} (r : outcome Z * S * W) : outcome pyval * S * W :=
  let '(o, s, w) := r in
  (match o with
   | Return n => Return (VInt n)
   | Exit status => Exit status
   | Raise e => Raise e
   end, s, w).

Definition run (c : call) (self : RexxFunctions.t) (w : world)
  : outcome pyval * RexxFunctions.t * world :=
  match c with
  | Linein file_path line_number exit_on_eof =>
      RexxFunctions.linein self w file_path line_number exit_on_eof
  | Rm file_path => int_result (RexxFunctions.rm self w file_path)
  | Lineout file_path s append =>
      int_result (RexxFunctions.lineout self w file_path s append)
  end.

(** The key a call enters in the dictionary: [linein], in either mode, once
    the path has passed the two checks [exists()] and [is_file()]. *)
Definition registers (c : call) (w : world) : gset string :=
  match c with
  | Linein file_path _ _ =>
      match nodes w !! absolute w file_path with
      | Some (Regular _ _) => {[ absolute w file_path ]}
      | _ => ∅
      end
  | _ => ∅
  end.

(** The key a call reads sequentially. *)
Definition reads_sequentially (c : call) (w : world) : gset string :=
  match c with
  | Linein file_path None _ => registers c w
  | _ => ∅
  end.

(** The states a session can be in, with the keys registered so far. *)
Inductive reachable (exit_on_error verbose : bool) (w0 : world)
  : gset string -> RexxFunctions.t -> world -> Prop :=
| reach_init :
    reachable exit_on_error verbose w0 ∅ (RexxFunctions.init exit_on_error verbose) w0
| reach_call K self w c v self' w' :
    reachable exit_on_error verbose w0 K self w ->
    run c self w = (Return v, self', w') ->
    reachable exit_on_error verbose w0 (K ∪ registers c w) self' w'.

(** [n] sequential reads of one file, one after the other; the results of the
    calls made, up to the first that does not return. *)
Fixpoint read_sequentially (n : nat) (self : RexxFunctions.t) (w : world)
    (file_path : string) (exit_on_eof : bool)
  : list (outcome pyval) * RexxFunctions.t * world :=
  match n with
  | O => ([], self, w)
  | S n' =>
      let '(o, self', w') := RexxFunctions.linein self w file_path None exit_on_eof in
      match o with
      | Return _ =>
          let '(os, self'', w'') := read_sequentially n' self' w' file_path exit_on_eof in
          (o :: os, self'', w'')
      | _ => ([o], self', w')
      end
  end.

(** The position a sequential read starts from: the stored number, and 0 for
    a file without a key. *)
Definition cursor (m : gmap string Z) (k : string) : Z := default 0 (m !! k).


(** [l] is a line as the iteration yields it, and [body] is what it holds
    before its terminator. *)
Definition line_of (body l : string) : Prop :=
  PyStr.mem PyFile.LF body = false /\ PyStr.mem PyFile.CR body = false /\
  (l = body +:+ PyFile.nl \/ l = body) /\ l <> "".

(** A small file system for the examples: a two-line file, a directory, a
    file the process may not open, and nothing else. *)
Definition sample : world :=
  World "home/rexx"
    (<["/data/in.txt" := Regular Granted ("alpha" +:+ PyFile.nl +:+ "beta" +:+ PyFile.nl)]>
       (<["/data" := Directory]>
          (<["/data/secret.txt" := Regular Denied "x"]> ∅)))
    ∅ [] [].

(** ** More of Python's [str] and [list]

    The built-in methods the remaining functions call.  Characters are code
    points below 256. *)

Module Py.

(** [c.isspace()] *)
Definition isspace (c : ascii) : bool :=
  let n := N_of_ascii c in
  ((9 <=? n) && (n <=? 13) || (28 <=? n) && (n <=? 32) || (n =? 133) || (n =? 160))%N.

(** [s.startswith(p)] *)
Fixpoint startswith (s p : string) : bool :=
  match p, s with
  | EmptyString, _ => true
  | String a p', String b s' => Ascii.eqb a b && startswith s' p'
  | String _ _, EmptyString => false
  end.

(** [s.lstrip(...)], [s.rstrip(...)] and [s.strip(...)], by the test that
    says which characters go. *)
Fixpoint lstrip_by (drop : ascii -> bool) (s : string) : string :=
  match s with
  | EmptyString => ""
  | String c rest => if drop c then lstrip_by drop rest else s
  end.

Fixpoint rstrip_by (drop : ascii -> bool) (s : string) : string :=
  match s with
  | EmptyString => ""
  | String c rest =>
      match rstrip_by drop rest with
      | EmptyString => if drop c then "" else String c ""
      | r => String c r
      end
  end.

Definition strip_by (drop : ascii -> bool) (s : string) : string :=
  rstrip_by drop (lstrip_by drop s).

(** The test of [s.strip(chars)]: the argument is a set of characters. *)
Definition among (chars : string) (c : ascii) : bool := PyStr.mem c chars.

(** [s.split(sep)] for a non-empty [sep], from left to right; [skip] counts
    the characters of a separator just found that are still to pass. *)
Fixpoint split_from (sep : string) (skip : nat) (s : string) : list string :=
  match s with
  | EmptyString => [""]
  | String c rest =>
      match skip with
      | S k => split_from sep k rest
      | O =>
          if startswith s sep
          then "" :: split_from sep (String.length sep - 1) rest
          else match split_from sep 0 rest with
               | tok :: toks => String c tok :: toks
               | [] => [String c ""]
               end
      end
  end.

(** [s.split(sep)] *)
Definition split (s sep : string) : outcome (list string) :=
  match sep with
  | EmptyString => Raise (ValueError "empty separator")
  | String _ _ => Return (split_from sep 0 s)
  end.

(** [sep.join(l)] *)
Fixpoint join (sep : string) (l : list string) : string :=
  match l with
  | [] => ""
  | [x] => x
  | x :: rest => x +:+ sep +:+ join sep rest
  end.

(** [s.replace(old, new)] for a non-empty [old]. *)
Fixpoint replace_from (old new : string) (skip : nat) (s : string) : string :=
  match s with
  | EmptyString => ""
  | String c rest =>
      match skip with
      | S k => replace_from old new k rest
      | O =>
          if startswith s old
          then new +:+ replace_from old new (String.length old - 1) rest
          else String c (replace_from old new 0 rest)
      end
  end.

(** [s.replace("", new)]: [new] goes before every character and at the end. *)
Fixpoint replace_empty (new s : string) : string :=
  match s with
  | EmptyString => new
  | String c rest => new +:+ String c (replace_empty new rest)
  end.

(** [s.replace(old, new)] *)
Definition replace (s old new : string) : string :=
  match old with
  | EmptyString => replace_empty new s
  | String _ _ => replace_from old new 0 s
  end.

(** The least index at which [sub] starts in [s]. *)
Fixpoint find_first (s sub : string) : option Z :=
  if startswith s sub then Some 0
  else match s with
       | EmptyString => None
       | String _ rest => Z.succ <$> find_first rest sub
       end.

(** [s.find(sub, start)]: a negative [start] counts from the end; a [start]
    past the end finds nothing. *)
Definition find (s sub : string) (start : Z) : Z :=
  let n := PyStr.len s in
  let i := if start <? 0 then Z.max 0 (start + n) else start in
  if n <? i then -1
  else match find_first (PyStr.drop (Z.to_nat i) s) sub with
       | Some k => i + k
       | None => -1
       end.

(** [s * n] *)
Fixpoint times (s : string) (n : nat) : string :=
  match n with
  | O => ""
  | S n' => s +:+ times s n'
  end.

Definition repeat (s : string) (n : Z) : string := times s (Z.to_nat n).

(** [s.ljust(width, pad)] and [s.rjust(width, pad)] for a fill character. *)
Definition ljust (s : string) (width : Z) (pad : ascii) : string :=
  s +:+ repeat (String pad "") (width - PyStr.len s).

Definition rjust (s : string) (width : Z) (pad : ascii) : string :=
  repeat (String pad "") (width - PyStr.len s) +:+ s.

(** [l[lo:hi]] on a list. *)
Definition lslice {A} (l : list A) (lo hi : option Z) : list A :=
  let n := Z.of_nat (length l) in
  let a := from_option (PyStr.bound n) 0 lo in
  let b := from_option (PyStr.bound n) n hi in
  take (Z.to_nat (b - a)) (drop (Z.to_nat a) l).

End Py.

(** ** The other string functions of [RexxFunctions.py]

    The fill character of [compare], [left] and [right] is an [ascii]: the
    methods [ljust] and [rjust] take one character and nothing else. *)

Module RexxStrings.

Definition word (s : string) (n : Z) (delimiter : string) : outcome string :=
  match Py.split s delimiter with
  | Return words =>
      Return (if (0 <? n) && (n <=? Z.of_nat (length words))
              then default "" (words !! Z.to_nat (n - 1))
              else "")
  | Exit status => Exit status
  | Raise e => Raise e
  end.

Definition words (s : string) (delimiter : string) : outcome Z :=
  match Py.strip_by Py.isspace s with
  | EmptyString => Return 0
  | String _ _ =>
      match Py.split s delimiter with
      | Return words => Return (Z.of_nat (length words))
      | Exit status => Exit status
      | Raise e => Raise e
      end
  end.

Definition pos (needle haystack : string) (start : Z) : Z :=
  let idx := Py.find haystack needle (start - 1) in
  if idx =? -1 then 0 else idx + 1.

Definition changestr (old new s : string) : string := Py.replace s old new.

Definition strip (s : string) (mode : string) (char : string) : outcome string :=
  if String.eqb mode "L" then Return (Py.lstrip_by (Py.among char) s)
  else if String.eqb mode "T" then Return (Py.rstrip_by (Py.among char) s)
  else if String.eqb mode "B" then Return (Py.strip_by (Py.among char) s)
  else Raise (ValueError "Invalid mode. Use 'L','T', or 'B'").

(** The loop of [verify] from the number [i] on. *)
Fixpoint verify_from (s ref_chars mode : string) (i : Z) : Z :=
  match s with
  | EmptyString => 0
  | String char rest =>
      if String.eqb mode "N" && negb (PyStr.mem char ref_chars)
         || String.eqb mode "M" && PyStr.mem char ref_chars
      then i
      else verify_from rest ref_chars mode (i + 1)
  end.

Definition verify (s ref_chars mode : string) : Z := verify_from s ref_chars mode 1.

(** The loop of [compare] over [zip(s1, s2)] from the number [i] on. *)
Fixpoint first_difference (s1 s2 : string) (i : Z) : Z :=
  match s1, s2 with
  | String c1 r1, String c2 r2 =>
      if Ascii.eqb c1 c2 then first_difference r1 r2 (i + 1) else i
  | _, _ => 0
  end.

Definition compare (string1 string2 : string) (pad : ascii) : Z :=
  let max_len := Z.max (PyStr.len string1) (PyStr.len string2) in
  let s1 := Py.ljust string1 max_len pad in
  let s2 := Py.ljust string2 max_len pad in
  first_difference s1 s2 1.

Definition left (s : string) (length : Z) (pad : ascii) : string :=
  if length <=? PyStr.len s then PyStr.slice s None (Some length)
  else Py.ljust s length pad.

Definition right (s : string) (length : Z) (pad : ascii) : string :=
  if length <=? PyStr.len s then PyStr.slice s (Some (- length)) None
  else Py.rjust s length pad.

Definition copies (s : string) (n : Z) : string := Py.repeat s n.

Definition delword (s : string) (word_num count : Z) (delimiter : string)
  : outcome string :=
  match Py.split s delimiter with
  | Return words =>
      if (word_num <=? 0) || (Z.of_nat (length words) <? word_num) then Return s
      else
        let remaining_words :=
          Py.lslice words None (Some (word_num - 1)) ++
          Py.lslice words (Some (word_num - 1 + count)) None in
        Return (Py.join delimiter remaining_words)
  | Exit status => Exit status
  | Raise e => Raise e
  end.

End RexxStrings.

(** ** The reader of [PythonTools.py]

    [Read_infile(filename).get_inrec()] read to its end: the records it
    yields, or the error that leaves [open]. *)

Module Read_infile.

Definition get_inrec (filename : string) (w : world)
  : (oserror + list string) * world :=
  match open_read w filename with
  | inr text => (inr (map (PyStr.rstrip PyFile.LF) (PyFile.lines text)), w)
  | inl FileNotFoundError =>
      (inr [], print_out w ("Error: The file " +:+ filename +:+ " was not found"))
  | inl e => (inl e, w)
  end.

End Read_infile.

(** [needle] is in [haystack] from the position [q] on, counted from 1. *)
Definition occurs_at (needle haystack : string) (q : Z) : Prop :=
  exists pre post : string,
    haystack = pre +:+ needle +:+ post /\ PyStr.len pre = q - 1.

(** Every character of [s] passes the test [p]. *)
Definition all_chars (p : ascii -> bool) (s : string) : Prop :=
  Forall (fun c => p c = true) (list_ascii_of_string s).

(** What every call keeps of the object: the two switches as given, and no
    negative number among [next_record] and the stored positions. *)
Definition kept (exit_on_error verbose : bool) (self : RexxFunctions.t) : Prop :=
  RexxFunctions.exit_on_error self = exit_on_error /\
  RexxFunctions.verbose self = verbose /\
  0 <= RexxFunctions.next_record self /\
  forall k n, RexxFunctions._file_positions self !! k = Some n -> 0 <= n.

(** * Properties *)

(** ** Slices *)

Section slices.
Local Open Scope nat_scope.
Import PyStr.

Lemma app_cons a s t : String a s +:+ t = String a (s +:+ t).
Proof. reflexivity. Qed.

Lemma app_empty_l s : "" +:+ s = s.
Proof. reflexivity. Qed.

Lemma app_empty_r s : s +:+ "" = s.
Proof. induction s as [|a s IH]; [done|]. by rewrite app_cons, IH. Qed.

Lemma app_assoc' s t u : (s +:+ t) +:+ u = s +:+ t +:+ u.
Proof. induction s as [|a s IH]; [done|]. by rewrite !app_cons, IH. Qed.

Lemma length_app' s t :
  String.length (s +:+ t) = String.length s + String.length t.
Proof. induction s as [|a s IH]; [done|]. rewrite app_cons. simpl. by rewrite IH. Qed.

Lemma take_drop n s : take n s +:+ drop n s = s.
Proof.
  revert s. induction n as [|n IH]; intros [|a s]; simpl; try done.
  by rewrite app_cons, IH.
Qed.

Lemma length_take n s : String.length (take n s) = Nat.min n (String.length s).
Proof.
  revert s. induction n as [|n IH]; intros [|a s]; simpl; try done.
  by rewrite IH.
Qed.

Lemma length_drop n s : String.length (drop n s) = String.length s - n.
Proof.
  revert s. induction n as [|n IH]; intros [|a s]; simpl; try done.
Qed.

Lemma take_ge n s : String.length s <= n -> take n s = s.
Proof.
  revert s. induction n as [|n IH]; intros [|a s]; simpl; try done; try lia.
  intros H. rewrite IH; [done | lia].
Qed.

Lemma drop_ge n s : String.length s <= n -> drop n s = "".
Proof.
  revert s. induction n as [|n IH]; intros [|a s]; simpl; try done; try lia.
  intros H. apply IH. lia.
Qed.

Lemma take_min n s : take (Nat.min n (String.length s)) s = take n s.
Proof.
  destruct (Nat.le_gt_cases n (String.length s)) as [H|H].
  - by rewrite Nat.min_l.
  - rewrite Nat.min_r by lia. rewrite !take_ge; [done | lia | lia].
Qed.

Lemma drop_min n s : drop (Nat.min n (String.length s)) s = drop n s.
Proof.
  destruct (Nat.le_gt_cases n (String.length s)) as [H|H].
  - by rewrite Nat.min_l.
  - rewrite Nat.min_r by lia. rewrite !drop_ge; [done | lia | lia].
Qed.

(** [s[:i]] for [0 <= i] is the first [i] characters. *)
Lemma slice_prefix s i : (0 <= i)%Z -> slice s None (Some i) = take (Z.to_nat i) s.
Proof.
  intros Hi. unfold slice, bound, len. simpl.
  destruct (Z.ltb_spec i 0) as [?|_]; [lia|].
  destruct (Z.ltb_spec i 0) as [?|_]; [lia|].
  destruct (Z.ltb_spec (Z.of_nat (String.length s)) i) as [H|H].
  - rewrite Z.sub_0_r, Nat2Z.id. rewrite !take_ge; [done | lia | lia].
  - by rewrite Z.sub_0_r.
Qed.

(** [s[i:]] for [0 <= i] is what follows the first [i] characters. *)
Lemma slice_suffix s i : (0 <= i)%Z -> slice s (Some i) None = drop (Z.to_nat i) s.
Proof.
  intros Hi. unfold slice, bound, len. simpl.
  destruct (Z.ltb_spec i 0) as [?|_]; [lia|].
  destruct (Z.ltb_spec i 0) as [?|_]; [lia|].
  destruct (Z.ltb_spec (Z.of_nat (String.length s)) i) as [H|H].
  - rewrite Nat2Z.id. rewrite !drop_ge; [by destruct (Z.to_nat _) | lia | lia].
  - apply take_ge. rewrite length_drop. lia.
Qed.

End slices.

(** ** [insert], [substr] and [delstr] *)

(** C9: [insert] splits the original string after its first [position - 1]
    characters (after all of them when the string is shorter) and puts the
    new string between the two parts; a position below 1 counts as 1, so the
    new string then comes first and no error is raised; and
    [insert("_0000", "file.txt", 5)] is ["file_0000.txt"]. *)
Theorem insert_before_position (new_str original_str : string) (position : Z) :
  (exists pre post : string,
      original_str = pre +:+ post /\
      String.length pre
        = Nat.min (Z.to_nat (Z.max 1 position - 1)) (String.length original_str) /\
      insert new_str original_str position = pre +:+ new_str +:+ post) /\
  (position < 1 -> insert new_str original_str position = new_str +:+ original_str) /\
  insert "_0000" "file.txt" 5 = "file_0000.txt".
Proof.
  assert (Hsplit : forall p, 1 <= p ->
            PyStr.slice original_str None (Some (p - 1)) +:+ new_str +:+
            PyStr.slice original_str (Some (p - 1)) None
            = PyStr.take (Z.to_nat (p - 1)) original_str +:+ new_str +:+
              PyStr.drop (Z.to_nat (p - 1)) original_str).
  { intros p Hp. rewrite slice_prefix, slice_suffix by lia. done. }
  split; [|split]; [| |reflexivity].
  - exists (PyStr.take (Z.to_nat (Z.max 1 position - 1)) original_str),
           (PyStr.drop (Z.to_nat (Z.max 1 position - 1)) original_str).
    split; [by rewrite take_drop|]. split; [apply length_take|].
    unfold insert. destruct (Z.ltb_spec position 1) as [H|H].
    + rewrite Z.max_l by lia. apply Hsplit. lia.
    + rewrite Z.max_r by lia. by apply Hsplit.
  - intros H. unfold insert. destruct (Z.ltb_spec position 1) as [_|?]; [|lia].
    rewrite Hsplit by lia. done.
Qed.

Lemma insert_before_position_witness :
  -3 < 1 /\ insert "x" "ab" (-3) = "x" +:+ "ab".
Proof.
  split; [lia|].
  destruct (insert_before_position "x" "ab" (-3)) as (_ & Hclamp & _).
  apply Hclamp. lia.
Defined.

(** C10: for [1 <= start <= len(s)] an explicit length of 0 is taken as an
    omitted length: [substr(s, start, 0)] is the non-empty rest of [s] from
    [start], as [substr(s, start)] is, and [delstr(s, start, 0)] keeps the
    first [start - 1] characters only, as [delstr(s, start)] does. *)
Theorem zero_length_as_omitted (s : string) (start : Z) :
  1 <= start <= PyStr.len s ->
  substr s start (Some 0) = substr s start None /\
  delstr s start (Some 0) = delstr s start None /\
  exists pre suf : string,
    s = pre +:+ suf /\ PyStr.len pre = start - 1 /\ suf <> "" /\ pre <> s /\
    substr s start (Some 0) = Return suf /\
    delstr s start (Some 0) = Return pre.
Proof.
  intros [Hlo Hhi]. unfold PyStr.len in Hhi.
  split; [reflexivity|]. split; [reflexivity|].
  exists (PyStr.take (Z.to_nat (start - 1)) s), (PyStr.drop (Z.to_nat (start - 1)) s).
  assert (Hsuf : PyStr.drop (Z.to_nat (start - 1)) s <> "").
  { intros E. apply (f_equal String.length) in E.
    rewrite length_drop in E. simpl in E. lia. }
  split; [by rewrite take_drop|].
  split; [unfold PyStr.len; rewrite length_take; lia|].
  split; [done|].
  split.
  { intros E. apply (f_equal String.length) in E. rewrite length_take in E. lia. }
  unfold substr, delstr. destruct (Z.ltb_spec start 1) as [?|_]; [lia|]. simpl.
  rewrite slice_prefix, slice_suffix by lia. by rewrite app_empty_r.
Qed.

Lemma zero_length_as_omitted_witness :
  1 <= 2 <= PyStr.len "HELLO" /\
  substr "HELLO" 2 (Some 0) = substr "HELLO" 2 None /\
  delstr "HELLO" 2 (Some 0) = delstr "HELLO" 2 None /\
  exists pre suf : string,
    "HELLO" = pre +:+ suf /\ PyStr.len pre = 2 - 1 /\ suf <> "" /\ pre <> "HELLO" /\
    substr "HELLO" 2 (Some 0) = Return suf /\
    delstr "HELLO" 2 (Some 0) = Return pre.
Proof.
  assert (H : 1 <= 2 <= PyStr.len "HELLO") by (vm_compute; split; discriminate).
  split; [exact H|]. exact (zero_length_as_omitted "HELLO" 2 H).
Defined.

(** ** Paths, lines and the scan *)

Lemma absolute_is_absolute w p : is_absolute (absolute w p) = true.
Proof. unfold absolute. by destruct (is_absolute p) eqn:E. Qed.

Lemma absolute_idemp w p : absolute w (absolute w p) = absolute w p.
Proof. unfold absolute at 1. by rewrite absolute_is_absolute. Qed.

Lemma open_read_absolute w p : open_read w (absolute w p) = open_read w p.
Proof. unfold open_read. by rewrite absolute_idemp. Qed.

Lemma scan_below file c t : t < c -> scan file c t = None.
Proof.
  revert c. induction file as [|x file IH]; intros c H; simpl; [done|].
  destruct (Z.eqb_spec c t) as [?|_]; [lia|]. apply IH. lia.
Qed.

Lemma scan_lookup file c t :
  c <= t -> scan file c t = (fun x => (t, x)) <$> file !! Z.to_nat (t - c).
Proof.
  revert c. induction file as [|x file IH]; intros c H; simpl; [done|].
  destruct (Z.eqb_spec c t) as [->|Hne].
  - by rewrite Z.sub_diag.
  - rewrite IH by lia.
    replace (Z.to_nat (t - c)) with (S (Z.to_nat (t - (c + 1)))) by lia. done.
Qed.

Lemma scan_found file c t n x : scan file c t = Some (n, x) -> n = t.
Proof.
  revert c. induction file as [|y file IH]; intros c; simpl; [done|].
  destruct (Z.eqb_spec c t) as [->|_]; [congruence | apply IH].
Qed.

(** ** Positional reads and the dictionary *)

(** Follow every branch of the code under inspection. *)
Ltac crunch := repeat (case_match; simplify_eq/=).





(** ** Lines and their terminators *)

Lemma rstrip_cons_ne c a s :
  Ascii.eqb a c = false -> PyStr.rstrip c (String a s) = String a (PyStr.rstrip c s).
Proof. intros H. simpl. rewrite H. by destruct (PyStr.rstrip c s). Qed.

Lemma rstrip_clean c s : PyStr.mem c s = false -> PyStr.rstrip c s = s.
Proof.
  induction s as [|a s IH]; [done|]. simpl PyStr.mem.
  intros [Ha Hs]%orb_false_iff. rewrite rstrip_cons_ne by done. by rewrite IH.
Qed.

Lemma rstrip_terminated s :
  PyStr.mem PyFile.LF s = false -> PyStr.rstrip PyFile.LF (s +:+ PyFile.nl) = s.
Proof.
  induction s as [|a s IH]; [done|]. simpl PyStr.mem.
  intros [Ha Hs]%orb_false_iff. rewrite app_cons, rstrip_cons_ne by done.
  by rewrite IH.
Qed.

Lemma rstrip_line_of body l : line_of body l -> PyStr.rstrip PyFile.LF l = body.
Proof.
  intros (Hlf & _ & [->| ->] & _); [by apply rstrip_terminated | by apply rstrip_clean].
Qed.

Lemma line_of_cons a body l :
  Ascii.eqb a PyFile.LF = false -> Ascii.eqb a PyFile.CR = false ->
  line_of body l -> line_of (String a body) (String a l).
Proof.
  intros Ha Hb (H1 & H2 & H3 & H4). repeat split; simpl; try done.
  - by rewrite Ha.
  - by rewrite Hb.
  - destruct H3 as [->| ->]; [left | right]; done.
Qed.

Lemma lines_shape text :
  Forall (fun l => exists body, line_of body l) (PyFile.lines text).
Proof.
  assert (Hnl : exists body, line_of body PyFile.nl).
  { exists "". repeat split; try done. by left. }
  induction text as [|c rest IH]; [constructor|]. simpl.
  destruct (Ascii.eqb c PyFile.LF) eqn:Hlf; [by constructor|].
  destruct (Ascii.eqb c PyFile.CR) eqn:Hcr.
  - destruct rest as [|c' rest']; [by repeat constructor|].
    destruct (Ascii.eqb c' PyFile.LF) eqn:Hlf'; [|by constructor].
    constructor; [done|]. simpl in IH. rewrite Hlf' in IH. by inversion IH.
  - destruct (PyFile.lines rest) as [|l ls].
    + repeat constructor. exists (String c ""). repeat split; simpl; try done.
      * by rewrite Hlf.
      * by rewrite Hcr.
      * by right.
    + inversion IH as [|? ? [body Hbody] Hls]; subst. constructor; [|done].
      exists (String c body). by apply line_of_cons.
Qed.


(** ** Sequential reads *)

Import RexxFunctions.

Lemma open_read_granted w p text :
  nodes w !! absolute w p = Some (Regular Granted text) -> open_read w p = inr text.
Proof. unfold open_read. by intros ->. Qed.

Lemma target_of_cursor self k :
  _file_positions
    (match _file_positions self !! k with
     | None => set_position self k 0
     | Some _ => self
     end) !!! k = cursor (_file_positions self) k.
Proof.
  unfold cursor. destruct (_file_positions self !! k) as [n|] eqn:E; simpl.
  - by rewrite (lookup_total_correct _ _ _ E).
  - by rewrite lookup_total_insert_eq.
Qed.

Lemma linein_sequential_line self w file_path exit_on_eof text c l :
  nodes w !! absolute w file_path = Some (Regular Granted text) ->
  cursor (_file_positions self) (absolute w file_path) = c ->
  0 <= c ->
  PyFile.lines text !! Z.to_nat c = Some l ->
  exists self',
    linein self w file_path None exit_on_eof
    = (Return (VStr (PyStr.rstrip PyFile.LF l)), self', w) /\
    _file_positions self' !! absolute w file_path = Some (c + 1) /\
    next_record self' = c + 1 /\
    exit_on_error self' = exit_on_error self /\
    verbose self' = verbose self.
Proof.
  intros Hnode Hc Hpos Hl. unfold linein. rewrite Hnode.
  rewrite open_read_absolute, (open_read_granted _ _ _ Hnode).
  rewrite target_of_cursor, Hc, scan_lookup by lia.
  replace (Z.to_nat (c + 1 - 1)) with (Z.to_nat c) by lia. rewrite Hl. simpl.
  eexists. split; [reflexivity|]. simpl. rewrite lookup_insert_eq.
  by destruct (_file_positions self !! absolute w file_path).
Qed.

Lemma linein_sequential_eof self w file_path exit_on_eof text c :
  nodes w !! absolute w file_path = Some (Regular Granted text) ->
  cursor (_file_positions self) (absolute w file_path) = c ->
  0 <= c ->
  PyFile.lines text !! Z.to_nat c = None ->
  exists self',
    linein self w file_path None exit_on_eof
    = (if exit_on_eof && exit_on_error self then Exit 0
       else Return (VInt END_OF_FILE), self', w) /\
    _file_positions self' !! absolute w file_path = Some 0 /\
    next_record self' = next_record self /\
    exit_on_error self' = exit_on_error self /\
    verbose self' = verbose self.
Proof.
  intros Hnode Hc Hpos Hl. unfold linein. rewrite Hnode.
  rewrite open_read_absolute, (open_read_granted _ _ _ Hnode).
  rewrite target_of_cursor, Hc, scan_lookup by lia.
  replace (Z.to_nat (c + 1 - 1)) with (Z.to_nat c) by lia. rewrite Hl. simpl.
  assert (He : exit_on_error
                 (match _file_positions self !! absolute w file_path with
                  | None => set_position self (absolute w file_path) 0
                  | Some _ => self
                  end) = exit_on_error self)
    by by destruct (_file_positions self !! absolute w file_path).
  rewrite He.
  eexists. split; [by destruct (exit_on_eof && exit_on_error self)|].
  simpl. rewrite lookup_insert_eq.
  by destruct (_file_positions self !! absolute w file_path).
Qed.

Lemma read_sequentially_from w file_path exit_on_eof text rest :
  nodes w !! absolute w file_path = Some (Regular Granted text) ->
  forall (i : nat) self,
    exit_on_eof && exit_on_error self = false ->
    cursor (_file_positions self) (absolute w file_path) = Z.of_nat i ->
    drop i (PyFile.lines text) = rest ->
    exists self_end,
      read_sequentially (S (length rest)) self w file_path exit_on_eof
      = (map (fun l => Return (VStr (PyStr.rstrip PyFile.LF l))) rest
           ++ [Return (VInt END_OF_FILE)], self_end, w) /\
      _file_positions self_end !! absolute w file_path = Some 0 /\
      exit_on_error self_end = exit_on_error self.
Proof.
  intros Hnode. induction rest as [|l rest IH]; intros i self Hflag Hc Hdrop.
  - assert (Hl : PyFile.lines text !! Z.to_nat (Z.of_nat i) = None).
    { rewrite Nat2Z.id. apply lookup_ge_None. by apply drop_nil_inv. }
    destruct (linein_sequential_eof self w file_path exit_on_eof text _ Hnode Hc
                ltac:(lia) Hl) as (self' & Hrun & Hkey & _ & He & _).
    exists self'. simpl. rewrite Hrun, Hflag. done.
  - assert (Hl : PyFile.lines text !! Z.to_nat (Z.of_nat i) = Some l).
    { rewrite Nat2Z.id. rewrite <- (Nat.add_0_r i), <- lookup_drop, Hdrop. done. }
    destruct (linein_sequential_line self w file_path exit_on_eof text _ l Hnode Hc
                ltac:(lia) Hl) as (self' & Hrun & Hkey & _ & He & _).
    destruct (IH (S i) self') as (self_end & Hrest & Hend & He').
    + by rewrite He.
    + unfold cursor. rewrite Hkey. simpl. lia.
    + replace (S i) with (i + 1)%nat by lia. by rewrite <- drop_drop, Hdrop.
    + exists self_end. change (read_sequentially (S (length (l :: rest))) self w file_path exit_on_eof)
        with (let '(o, self', w') := linein self w file_path None exit_on_eof in
              match o with
              | Return _ =>
                  let '(os, self'', w'') :=
                    read_sequentially (S (length rest)) self' w' file_path exit_on_eof in
                  (o :: os, self'', w'')
              | _ => ([o], self', w')
              end).
      rewrite Hrun, Hrest. simpl. by rewrite He', He.
Qed.

Lemma first_read_outcome self w file_path exit_on_eof text :
  nodes w !! absolute w file_path = Some (Regular Granted text) ->
  cursor (_file_positions self) (absolute w file_path) = 0 ->
  (linein self w file_path None exit_on_eof).1.1
  = match PyFile.lines text with
    | l :: _ => Return (VStr (PyStr.rstrip PyFile.LF l))
    | [] => if exit_on_eof && exit_on_error self then Exit 0
            else Return (VInt END_OF_FILE)
    end.
Proof.
  intros Hnode Hc. destruct (PyFile.lines text) as [|l ls] eqn:E.
  - destruct (linein_sequential_eof self w file_path exit_on_eof text 0 Hnode Hc)
      as (self' & -> & _); [lia | by rewrite E | done].
  - destruct (linein_sequential_line self w file_path exit_on_eof text 0 l Hnode Hc)
      as (self' & -> & _); [lia | by rewrite E | done].
Qed.

(** C2: on a readable file whose position is 0, in a configuration where the
    end of the file is returned, as many sequential reads as the file has
    lines, and one more, return the lines in order, each without its
    terminator, and then [END_OF_FILE]; the file system and the streams are
    as before; the position is 0 again, and the next sequential read returns
    what the first one did, which is line 1 when the file has a line. *)
Theorem sequential_reads_then_eof (self : RexxFunctions.t) (w : world)
    (file_path : string) (exit_on_eof : bool) (text : string) :
  nodes w !! absolute w file_path = Some (Regular Granted text) ->
  cursor (_file_positions self) (absolute w file_path) = 0 ->
  exit_on_eof && exit_on_error self = false ->
  let file := PyFile.lines text in
  let r := read_sequentially (S (length file)) self w file_path exit_on_eof in
  let again := (linein r.1.2 r.2 file_path None exit_on_eof).1.1 in
  exists bodies : list string,
    Forall2 line_of bodies file /\
    r.1.1 = map (fun b => Return (VStr b)) bodies ++ [Return (VInt END_OF_FILE)] /\
    r.2 = w /\
    _file_positions r.1.2 !! absolute w file_path = Some 0 /\
    again = (linein self w file_path None exit_on_eof).1.1 /\
    (forall b, head bodies = Some b -> again = Return (VStr b)).
Proof.
  intros Hnode Hc Hflag file r again.
  destruct (read_sequentially_from w file_path exit_on_eof text file Hnode 0%nat self)
    as (self_end & Hrun & Hend & He); [done | by rewrite Hc | done |].
  subst r again. rewrite Hrun. simpl.
  assert (Hc' : cursor (_file_positions self_end) (absolute w file_path) = 0)
    by (unfold cursor; by rewrite Hend).
  rewrite !(first_read_outcome _ w file_path exit_on_eof text) by done.
  rewrite He. fold file.
  exists (map (PyStr.rstrip PyFile.LF) file).
  split; [|split; [|split; [|split; [|split]]]]; try done.
  - apply Forall2_fmap_l, Forall_Forall2_diag.
    eapply Forall_impl; [apply lines_shape|].
    intros l [body Hbody]. simpl. by rewrite (rstrip_line_of _ _ Hbody).
  - by rewrite map_map.
  - intros b. destruct file as [|l ls]; simpl; [done|]. by intros [= <-].
Qed.

Lemma sequential_reads_then_eof_witness :
  let text := "alpha" +:+ PyFile.nl +:+ "beta" +:+ PyFile.nl in
  let self := RexxFunctions.init false true in
  let file := PyFile.lines text in
  let r := read_sequentially (S (length file)) self sample "/data/in.txt" true in
  let again := (linein r.1.2 r.2 "/data/in.txt" None true).1.1 in
  nodes sample !! absolute sample "/data/in.txt" = Some (Regular Granted text) /\
  cursor (_file_positions self) (absolute sample "/data/in.txt") = 0 /\
  true && exit_on_error self = false /\
  exists bodies : list string,
    Forall2 line_of bodies file /\
    r.1.1 = map (fun b => Return (VStr b)) bodies ++ [Return (VInt END_OF_FILE)] /\
    r.2 = sample /\
    _file_positions r.1.2 !! absolute sample "/data/in.txt" = Some 0 /\
    again = (linein self sample "/data/in.txt" None true).1.1 /\
    (forall b, head bodies = Some b -> again = Return (VStr b)).
Proof.
  assert (H1 : nodes sample !! absolute sample "/data/in.txt"
               = Some (Regular Granted ("alpha" +:+ PyFile.nl +:+ "beta" +:+ PyFile.nl)))
    by (vm_compute; reflexivity).
  assert (H2 : cursor (_file_positions (RexxFunctions.init false true))
                 (absolute sample "/data/in.txt") = 0)
    by (vm_compute; reflexivity).
  split; [exact H1|]. split; [exact H2|]. split; [reflexivity|].
  exact (sequential_reads_then_eof (RexxFunctions.init false true) sample
           "/data/in.txt" true _ H1 H2 eq_refl).
Defined.

Example two_lines_then_eof :
  (read_sequentially 4 (RexxFunctions.init false true) sample "/data/in.txt" true).1.1
  = [Return (VStr "alpha"); Return (VStr "beta"); Return (VInt END_OF_FILE);
     Return (VStr "alpha")].
Proof. vm_compute. reflexivity. Qed.

(** ** The keys of the dictionary *)

Lemma dom_registered self k :
  dom (_file_positions
         (match _file_positions self !! k with
          | None => set_position self k 0
          | Some _ => self
          end)) = dom (_file_positions self) ∪ {[ k ]}.
Proof.
  destruct (_file_positions self !! k) as [n|] eqn:E; simpl.
  - apply (elem_of_dom_2 (D := gset string)) in E. set_solver.
  - rewrite dom_insert_L. set_solver.
Qed.

Lemma run_dom c self w :
  dom (_file_positions (run c self w).1.2) = dom (_file_positions self) ∪ registers c w.
Proof.
  destruct c as [file_path line_number exit_on_eof|file_path|file_path s append]; simpl.
  - unfold linein.
    destruct (nodes w !! absolute w file_path) as [[|acc text]|];
      simpl; [by rewrite (right_id_L ∅ (∪))| |by rewrite (right_id_L ∅ (∪))].
    pose proof (dom_registered self (absolute w file_path)) as Hdom.
    destruct (match _file_positions self !! absolute w file_path with
              | None => _ | Some _ => self end) as [m e v n]; simpl in *.
    destruct (open_read w (absolute w file_path)) as [[]|content]; simpl; try done.
    destruct (scan (PyFile.lines content) 1 _) as [[current_line line]|]; simpl.
    + rewrite dom_insert_L, Hdom. set_solver.
    + destruct line_number; simpl; destruct (exit_on_eof && e); simpl;
        rewrite ?dom_insert_L, Hdom; set_solver.
  - unfold rm, int_result.
    destruct (nodes w !! absolute w file_path); simpl;
      [destruct (unlink w (absolute w file_path)); simpl|];
      by rewrite (right_id_L ∅ (∪)).
  - unfold lineout, int_result.
    destruct (open_write w file_path append (s +:+ PyFile.nl)); simpl;
      by rewrite (right_id_L ∅ (∪)).
Qed.

(** C3, as amended: in every state a session reaches, the keys of the
    dictionary are the files on which [linein] was called, with or without a
    line number, while they were regular files; a key once entered stays (the
    reset at the end of a file stores 0, and [rm] leaves the key). *)
Theorem keys_are_registered_files (exit_on_error verbose : bool) (w0 : world)
    (K : gset string) (self : RexxFunctions.t) (w : world) :
  reachable exit_on_error verbose w0 K self w ->
  dom (_file_positions self) = K.
Proof.
  induction 1 as [|K self w c v self' w' _ IH Hrun].
  - simpl. apply dom_empty_L.
  - pose proof (run_dom c self w) as Hdom. rewrite Hrun in Hdom. simpl in Hdom.
    by rewrite Hdom, IH.
Qed.

Lemma keys_are_registered_files_witness :
  let c := Linein "/data/in.txt" (Some 1) false in
  let r := run c (init false false) sample in
  reachable false false sample (∅ ∪ registers c sample) r.1.2 r.2 /\
  dom (_file_positions r.1.2) = ∅ ∪ registers c sample.
Proof.
  intros c r.
  assert (H : reachable false false sample (∅ ∪ registers c sample) r.1.2 r.2).
  { apply (reach_call false false sample ∅ (init false false) sample c (VStr "alpha")).
    - apply reach_init.
    - vm_compute. reflexivity. }
  split; [exact H|].
  exact (keys_are_registered_files false false sample _ _ _ H).
Defined.

(** C3, as stated, fails: one positional read, and no sequential read, of a
    file makes its key present. *)
Lemma positional_read_registers_key :
  let c := Linein "/data/in.txt" (Some 1) false in
  let r := run c (init false false) sample in
  reads_sequentially c sample = ∅ /\
  r.1.1 = Return (VStr "alpha") /\
  "/data/in.txt" ∈ dom (_file_positions r.1.2).
Proof.
  simpl. split; [done|]. split; [vm_compute; reflexivity|].
  apply elem_of_dom. exists 1. vm_compute. reflexivity.
Qed.

(** ** Line numbers below 1 *)

Lemma linein_below_one self w file_path k exit_on_eof text :
  k < 1 ->
  nodes w !! absolute w file_path = Some (Regular Granted text) ->
  (linein self w file_path (Some k) exit_on_eof).1.1
  = if exit_on_eof && exit_on_error self then Exit 0 else Return (VInt END_OF_FILE).
Proof.
  intros Hk Hnode. unfold linein. rewrite Hnode.
  rewrite open_read_absolute, (open_read_granted _ _ _ Hnode).
  rewrite scan_below by lia.
  destruct (_file_positions self !! absolute w file_path); simpl;
    by destruct (exit_on_eof && exit_on_error self).
Qed.

(** C4: the line number 0 is not rejected by [RexxFunctions.py]: on a
    readable file the call returns [END_OF_FILE], or ends the process with
    status 0 in the default configuration, where [linein.py] raises
    [ValueError]. *)
Theorem line_zero_is_not_rejected :
  (linein (init false true) sample "/data/in.txt" (Some 0) false).1.1
  = Return (VInt END_OF_FILE) /\
  (linein (init true true) sample "/data/in.txt" (Some 0) true).1.1 = Exit 0 /\
  (Linein_py.linein ∅ sample "/data/in.txt" (Some 0)).1.1
  = Raise (ValueError "Line numbers must be ≥ 1").
Proof. repeat split; vm_compute; reflexivity. Qed.

(** ** The end of the file and the two switches *)




(** ** The two line readers side by side *)





(** ** The [verbose] switch *)


(** ** Writing a line and reading it back *)





(** * Further properties *)

(** ** Taking and deleting a part of a string *)

Lemma slice_between s a b :
  0 <= a <= b ->
  PyStr.slice s (Some a) (Some b)
  = PyStr.take (Z.to_nat (b - a)) (PyStr.drop (Z.to_nat a) s).
Proof.
  intros [Ha Hab]. unfold PyStr.slice, PyStr.bound, PyStr.len. simpl.
  set (n := Z.of_nat (String.length s)).
  destruct (Z.ltb_spec a 0) as [?|_]; [lia|].
  destruct (Z.ltb_spec b 0) as [?|_]; [lia|].
  destruct (Z.ltb_spec a 0) as [?|_]; [lia|].
  destruct (Z.ltb_spec b 0) as [?|_]; [lia|].
  destruct (Z.ltb_spec n a) as [Hna|Hna], (Z.ltb_spec n b) as [Hnb|Hnb]; try lia.
  - rewrite !drop_ge by lia. by destruct (Z.to_nat (n - n)), (Z.to_nat (b - a)).
  - rewrite <- (take_min (Z.to_nat (b - a))). f_equal. rewrite length_drop. lia.
  - done.
Qed.

Lemma take_app_length s t : PyStr.take (String.length s) (s +:+ t) = s.
Proof. induction s as [|c s IH]; [done|]. rewrite app_cons. simpl. by rewrite IH. Qed.

Lemma drop_app_length s t : PyStr.drop (String.length s) (s +:+ t) = t.
Proof. induction s as [|c s IH]; [done|]. by rewrite app_cons. Qed.

Lemma drop_drop' n m s : PyStr.drop n (PyStr.drop m s) = PyStr.drop (m + n) s.
Proof.
  revert s. induction m as [|m IH]; intros s; [done|].
  destruct s as [|c s]; simpl; [by destruct n | apply IH].
Qed.

(** [substr] and [delstr] with a length of 1 or more cut the string in
    three: what is before [start], the part taken, and what follows. *)
Theorem substr_delstr_partition (s : string) (start length : Z) :
  1 <= start -> 1 <= length ->
  exists pre mid post : string,
    s = pre +:+ mid +:+ post /\
    PyStr.len pre = Z.min (start - 1) (PyStr.len s) /\
    PyStr.len mid = Z.min length (PyStr.len s - PyStr.len pre) /\
    substr s start (Some length) = Return mid /\
    delstr s start (Some length) = Return (pre +:+ post).
Proof.
  intros Hs Hl.
  exists (PyStr.take (Z.to_nat (start - 1)) s),
         (PyStr.take (Z.to_nat length) (PyStr.drop (Z.to_nat (start - 1)) s)),
         (PyStr.drop (Z.to_nat (start - 1 + length)) s).
  split; [|split; [|split; [|split]]].
  - replace (Z.to_nat (start - 1 + length))
      with (Z.to_nat (start - 1) + Z.to_nat length)%nat by lia.
    by rewrite <- drop_drop', !take_drop.
  - unfold PyStr.len. rewrite length_take. lia.
  - unfold PyStr.len. rewrite !length_take, length_drop. lia.
  - unfold substr. destruct (Z.ltb_spec start 1) as [?|_]; [lia|].
    unfold truthy. destruct (Z.eqb_spec length 0) as [?|_]; [lia|]. simpl.
    rewrite slice_between by lia. do 3 f_equal. lia.
  - unfold delstr. destruct (Z.ltb_spec start 1) as [?|_]; [lia|].
    unfold truthy. destruct (Z.eqb_spec length 0) as [?|_]; [lia|]. simpl.
    by rewrite slice_prefix, slice_suffix by lia.
Qed.

Lemma substr_delstr_partition_witness :
  1 <= 2 /\ 1 <= 3 /\
  exists pre mid post : string,
    "HELLO" = pre +:+ mid +:+ post /\
    PyStr.len pre = Z.min (2 - 1) (PyStr.len "HELLO") /\
    PyStr.len mid = Z.min 3 (PyStr.len "HELLO" - PyStr.len pre) /\
    substr "HELLO" 2 (Some 3) = Return mid /\
    delstr "HELLO" 2 (Some 3) = Return (pre +:+ post).
Proof.
  assert (H1 : 1 <= 2) by lia. assert (H2 : 1 <= 3) by lia.
  split; [exact H1|]. split; [exact H2|].
  exact (substr_delstr_partition "HELLO" 2 3 H1 H2).
Defined.

(** What [insert] puts in, [substr] finds at the same position and [delstr]
    takes out again, for a new string that is not empty. *)
Theorem insert_then_delstr (new_str original_str : string) (position : Z) :
  new_str <> "" ->
  1 <= position <= PyStr.len original_str + 1 ->
  substr (insert new_str original_str position) position (Some (PyStr.len new_str))
  = Return new_str /\
  delstr (insert new_str original_str position) position (Some (PyStr.len new_str))
  = Return original_str.
Proof.
  intros Hnew [Hlo Hhi]. unfold PyStr.len in *.
  assert (Hlen : 1 <= Z.of_nat (String.length new_str)).
  { destruct new_str; [done | simpl; lia]. }
  assert (Hins : insert new_str original_str position
                 = PyStr.take (Z.to_nat (position - 1)) original_str +:+ new_str +:+
                   PyStr.drop (Z.to_nat (position - 1)) original_str).
  { unfold insert. destruct (Z.ltb_spec position 1) as [?|_]; [lia|].
    by rewrite slice_prefix, slice_suffix by lia. }
  set (pre := PyStr.take (Z.to_nat (position - 1)) original_str) in *.
  set (post := PyStr.drop (Z.to_nat (position - 1)) original_str) in *.
  assert (Hpre : Z.to_nat (position - 1) = String.length pre).
  { subst pre. rewrite length_take. lia. }
  unfold substr, delstr. destruct (Z.ltb_spec position 1) as [?|_]; [lia|].
  unfold truthy, PyStr.len.
  destruct (Z.eqb_spec (Z.of_nat (String.length new_str)) 0) as [?|_]; [lia|]. simpl.
  rewrite slice_between, slice_prefix, slice_suffix by lia.
  rewrite Hins, Hpre.
  replace (Z.to_nat (position - 1 + Z.of_nat (String.length new_str)))
    with (String.length pre + String.length new_str)%nat by lia.
  replace (Z.to_nat (position - 1 + Z.of_nat (String.length new_str) - (position - 1)))
    with (String.length new_str) by lia.
  rewrite <- drop_drop', !drop_app_length, !take_app_length.
  split; [done|]. subst pre post. by rewrite take_drop.
Qed.

Lemma insert_then_delstr_witness :
  "_0000" <> "" /\ 1 <= 5 <= PyStr.len "file.txt" + 1 /\
  substr (insert "_0000" "file.txt" 5) 5 (Some (PyStr.len "_0000")) = Return "_0000" /\
  delstr (insert "_0000" "file.txt" 5) 5 (Some (PyStr.len "_0000")) = Return "file.txt".
Proof.
  assert (H1 : "_0000" <> "") by discriminate.
  assert (H2 : 1 <= 5 <= PyStr.len "file.txt" + 1) by (vm_compute; split; discriminate).
  split; [exact H1|]. split; [exact H2|].
  exact (insert_then_delstr "_0000" "file.txt" 5 H1 H2).
Defined.

(** ** Splitting, joining and replacing *)

Lemma startswith_app s p : Py.startswith s p = true <-> exists t, s = p +:+ t.
Proof.
  revert s. induction p as [|a p IH]; intros s; simpl.
  - split; [by exists s | by destruct s].
  - destruct s as [|b s]; simpl.
    + split; [done | by intros [t Ht]].
    + rewrite andb_true_iff, IH. split.
      * intros [Hab [t ->]]. apply Ascii.eqb_eq in Hab as ->. by exists t.
      * intros [t Ht]. rewrite app_cons in Ht. injection Ht as -> ->.
        split; [apply Ascii.eqb_refl | by exists t].
Qed.

Lemma split_from_skip sep t s :
  Py.split_from sep (String.length t) (t +:+ s) = Py.split_from sep 0 s.
Proof. induction t as [|a t IH]; [done|]. by rewrite app_cons. Qed.

Lemma replace_from_skip old new t s :
  Py.replace_from old new (String.length t) (t +:+ s) = Py.replace_from old new 0 s.
Proof. induction t as [|a t IH]; [done|]. by rewrite app_cons. Qed.

Lemma split_from_step sep c s :
  Py.split_from sep 0 (String c s)
  = if Py.startswith (String c s) sep
    then "" :: Py.split_from sep (String.length sep - 1) s
    else match Py.split_from sep 0 s with
         | tok :: toks => String c tok :: toks
         | [] => [String c ""]
         end.
Proof. reflexivity. Qed.

Lemma split_from_cons sep k s : exists tok toks, Py.split_from sep k s = tok :: toks.
Proof.
  revert k. induction s as [|c s IH]; intros k; [by exists "", []|].
  destruct k as [|k]; [|apply IH].
  rewrite split_from_step. destruct (Py.startswith (String c s) sep).
  - by eexists _, _.
  - destruct (IH 0%nat) as (tok & toks & ->). by eexists _, _.
Qed.

Lemma replace_from_step old new c s :
  Py.replace_from old new 0 (String c s)
  = if Py.startswith (String c s) old
    then new +:+ Py.replace_from old new (String.length old - 1) s
    else String c (Py.replace_from old new 0 s).
Proof. reflexivity. Qed.

Lemma join_cons_cons sep x y l :
  Py.join sep (x :: y :: l) = x +:+ sep +:+ Py.join sep (y :: l).
Proof. done. Qed.

Lemma join_cons_char sep c tok toks :
  Py.join sep (String c tok :: toks) = String c (Py.join sep (tok :: toks)).
Proof. by destruct toks. Qed.

Lemma startswith_self_app p s : Py.startswith (p +:+ s) p = true.
Proof. apply startswith_app. by exists s. Qed.

(** What [split_from] and [replace_from] do where a separator starts. *)
Lemma split_from_match sep s :
  sep <> "" -> Py.split_from sep 0 (sep +:+ s) = "" :: Py.split_from sep 0 s.
Proof.
  destruct sep as [|a sep]; [done|]. intros _.
  rewrite app_cons, split_from_step, <- app_cons, startswith_self_app.
  replace (String.length (String a sep) - 1)%nat with (String.length sep)
    by (simpl; lia).
  by rewrite split_from_skip.
Qed.

Lemma replace_from_match old new s :
  old <> "" ->
  Py.replace_from old new 0 (old +:+ s) = new +:+ Py.replace_from old new 0 s.
Proof.
  destruct old as [|a old]; [done|]. intros _.
  rewrite app_cons, replace_from_step, <- app_cons, startswith_self_app.
  replace (String.length (String a old) - 1)%nat with (String.length old)
    by (simpl; lia).
  by rewrite replace_from_skip.
Qed.

(** Induction on a string along the separators found in it. *)
Lemma separator_ind (sep : string) (Hsep : sep <> "") (P : string -> Prop) :
  P "" ->
  (forall s, P s -> P (sep +:+ s)) ->
  (forall c s, Py.startswith (String c s) sep = false -> P s -> P (String c s)) ->
  forall s, P s.
Proof.
  intros H0 Hmatch Hchar s.
  remember (String.length s) as n eqn:Hn.
  revert s Hn. induction n as [n IH] using lt_wf_ind. intros s ->.
  destruct s as [|c s]; [done|].
  destruct (Py.startswith (String c s) sep) eqn:E.
  - apply startswith_app in E as [t Ht]. rewrite Ht. apply Hmatch.
    apply (IH (String.length t)); [|done].
    apply (f_equal String.length) in Ht. rewrite length_app' in Ht.
    destruct sep; [done|]. simpl in *. lia.
  - apply Hchar; [done|]. apply (IH (String.length s)); [simpl; lia | done].
Qed.

Lemma join_split_from sep s : sep <> "" -> Py.join sep (Py.split_from sep 0 s) = s.
Proof.
  intros Hsep. induction s as [|s IH|c s E IH] using (separator_ind sep Hsep); try done.
  - rewrite split_from_match by done.
    destruct (split_from_cons sep 0 s) as (tok & toks & Hs).
    rewrite Hs in *. by rewrite join_cons_cons, IH.
  - rewrite split_from_step, E.
    destruct (split_from_cons sep 0 s) as (tok & toks & Hs).
    rewrite Hs in *. by rewrite join_cons_char, IH.
Qed.

Lemma replace_from_join_split old new s :
  old <> "" -> Py.replace_from old new 0 s = Py.join new (Py.split_from old 0 s).
Proof.
  intros Hold. induction s as [|s IH|c s E IH] using (separator_ind old Hold); try done.
  - rewrite split_from_match, replace_from_match by done.
    destruct (split_from_cons old 0 s) as (tok & toks & Hs).
    rewrite Hs in *. by rewrite join_cons_cons, IH.
  - rewrite split_from_step, replace_from_step, E.
    destruct (split_from_cons old 0 s) as (tok & toks & Hs).
    rewrite Hs in *. by rewrite join_cons_char, IH.
Qed.

(** ** Words *)

Lemma lslice_prefix {A} (l : list A) i :
  0 <= i -> Py.lslice l None (Some i) = take (Z.to_nat i) l.
Proof.
  intros Hi. unfold Py.lslice, PyStr.bound. simpl.
  change (drop (Z.to_nat 0) l) with l.
  destruct (Z.ltb_spec i 0) as [?|_]; [lia|].
  destruct (Z.ltb_spec i 0) as [?|_]; [lia|].
  destruct (Z.ltb_spec (Z.of_nat (length l)) i) as [H|H].
  - rewrite Z.sub_0_r, Nat2Z.id. rewrite !list.take_ge; [done | lia | lia].
  - by rewrite Z.sub_0_r.
Qed.

Lemma lslice_suffix {A} (l : list A) i :
  0 <= i -> Py.lslice l (Some i) None = drop (Z.to_nat i) l.
Proof.
  intros Hi. unfold Py.lslice, PyStr.bound. simpl.
  destruct (Z.ltb_spec i 0) as [?|_]; [lia|].
  destruct (Z.ltb_spec i 0) as [?|_]; [lia|].
  destruct (Z.ltb_spec (Z.of_nat (length l)) i) as [H|H].
  - rewrite Nat2Z.id. rewrite !list.drop_ge; [by rewrite take_nil | lia | lia].
  - apply list.take_ge. rewrite list.length_drop. lia.
Qed.

Lemma lstrip_by_blank p s :
  Py.lstrip_by p s = "" <-> Forall (fun c => p c = true) (list_ascii_of_string s).
Proof.
  induction s as [|c s IH]; simpl; [by split; [constructor|]|].
  destruct (p c) eqn:E.
  - rewrite IH. split; [by constructor | by inversion 1].
  - split; [done | inversion 1; congruence].
Qed.

Lemma rstrip_by_head p c s :
  p c = false -> Py.rstrip_by p (String c s) <> "".
Proof. intros E. simpl. rewrite E. by destruct (Py.rstrip_by p s). Qed.

Lemma strip_by_blank p s :
  Py.strip_by p s = "" <-> Forall (fun c => p c = true) (list_ascii_of_string s).
Proof.
  rewrite <- lstrip_by_blank. unfold Py.strip_by. split.
  - intros H. destruct (Py.lstrip_by p s) as [|c t] eqn:E; [done|].
    exfalso. revert H. apply rstrip_by_head.
    clear -E. induction s as [|a s IH]; simpl in E; [done|].
    destruct (p a) eqn:Ha; [by apply IH | congruence].
  - by intros ->.
Qed.

(** [words] returns 0 for the strings of white space, the empty string among
    them, whatever the delimiter, and for no other string. *)
Theorem words_zero_iff_blank (s delimiter : string) :
  RexxStrings.words s delimiter = Return 0 <-> all_chars Py.isspace s.
Proof.
  unfold all_chars. rewrite <- strip_by_blank. unfold RexxStrings.words.
  destruct (Py.strip_by Py.isspace s) as [|c t]; [done|].
  split; [|done]. unfold Py.split. destruct delimiter as [|a d]; [done|].
  destruct (split_from_cons (String a d) 0 s) as (tok & toks & ->). simpl.
  intros [= H]; lia.
Qed.

Lemma split_Return s delimiter parts :
  Py.split s delimiter = Return parts ->
  delimiter <> "" /\ parts = Py.split_from delimiter 0 s.
Proof. unfold Py.split. destruct delimiter; [done|]. by intros [= <-]. Qed.

Lemma words_zero_iff_blank_witness :
  all_chars Py.isspace "  " /\ RexxStrings.words "  " "," = Return 0.
Proof.
  assert (H : all_chars Py.isspace "  ") by (repeat constructor).
  split; [exact H|].
  destruct (words_zero_iff_blank "  " ",") as [_ Hblank]. exact (Hblank H).
Defined.

(** With [parts] what [s.split(delimiter)] returns and a string that is not
    blank, [words] is the number of parts, [word] returns the n-th of them,
    or the empty string outside 1 .. [words], and the parts joined by the
    delimiter are the string. *)
Theorem word_and_words (s delimiter : string) (parts : list string) :
  Py.split s delimiter = Return parts ->
  Py.strip_by Py.isspace s <> "" ->
  Py.join delimiter parts = s /\
  RexxStrings.words s delimiter = Return (Z.of_nat (length parts)) /\
  1 <= Z.of_nat (length parts) /\
  (forall (i : nat) part, parts !! i = Some part ->
     RexxStrings.word s (Z.of_nat i + 1) delimiter = Return part) /\
  (forall n, n < 1 \/ Z.of_nat (length parts) < n ->
     RexxStrings.word s n delimiter = Return "").
Proof.
  intros Hsplit Hs. destruct (split_Return _ _ _ Hsplit) as [Hd Hparts].
  split; [subst parts; by apply join_split_from|].
  unfold RexxStrings.words, RexxStrings.word. rewrite Hsplit.
  destruct (Py.strip_by Py.isspace s) as [|c0 t0]; [done|].
  split; [done|]. split.
  { destruct (split_from_cons delimiter 0 s) as (tok & toks & E).
    rewrite Hparts, E. simpl. lia. }
  split.
  - intros i part Hi. pose proof (lookup_lt_Some _ _ _ Hi) as Hlt.
    destruct (Z.ltb_spec 0 (Z.of_nat i + 1)) as [_|?]; [|lia].
    destruct (Z.leb_spec (Z.of_nat i + 1) (Z.of_nat (length parts))) as [_|?]; [|lia].
    simpl. replace (Z.to_nat (Z.of_nat i + 1 - 1)) with i by lia. by rewrite Hi.
  - intros n Hn.
    destruct (Z.ltb_spec 0 n) as [?|_]; [|done].
    destruct (Z.leb_spec n (Z.of_nat (length parts))) as [?|_]; [lia | done].
Qed.

Lemma word_and_words_witness :
  Py.split "one two three" " " = Return ["one"; "two"; "three"] /\
  Py.strip_by Py.isspace "one two three" <> "" /\
  RexxStrings.words "one two three" " " = Return 3 /\
  RexxStrings.word "one two three" 2 " " = Return "two" /\
  RexxStrings.word "one two three" 4 " " = Return "".
Proof.
  assert (H1 : Py.split "one two three" " " = Return ["one"; "two"; "three"])
    by reflexivity.
  assert (H2 : Py.strip_by Py.isspace "one two three" <> "") by (vm_compute; discriminate).
  split; [exact H1|]. split; [exact H2|].
  destruct (word_and_words _ _ _ H1 H2) as (_ & Hwords & _ & Hword & Hout).
  split; [exact Hwords|]. split.
  - exact (Hword 1%nat "two" eq_refl).
  - apply Hout. right. simpl. lia.
Defined.

(** With [parts] what [s.split(delimiter)] returns, a word number in range
    and a count that is not negative, [delword] joins the parts before the
    word and the parts after the [count] deleted ones; with a count of 0,
    and with a word number out of range, it returns the string as it is. *)
Theorem delword_parts (s delimiter : string) (word_num count : Z)
    (parts : list string) :
  Py.split s delimiter = Return parts ->
  0 <= count ->
  Py.join delimiter parts = s /\
  (1 <= word_num <= Z.of_nat (length parts) ->
     RexxStrings.delword s word_num count delimiter
     = Return (Py.join delimiter
                 (take (Z.to_nat (word_num - 1)) parts ++
                  drop (Z.to_nat (word_num - 1 + count)) parts))) /\
  (1 <= word_num <= Z.of_nat (length parts) ->
     RexxStrings.delword s word_num 0 delimiter = Return s) /\
  (word_num < 1 \/ Z.of_nat (length parts) < word_num ->
     RexxStrings.delword s word_num count delimiter = Return s).
Proof.
  intros Hsplit Hc. destruct (split_Return _ _ _ Hsplit) as [Hd Hparts].
  assert (Hjoin : Py.join delimiter parts = s)
    by (subst parts; by apply join_split_from).
  split; [done|].
  unfold RexxStrings.delword. rewrite Hsplit.
  split; [|split].
  - intros [Hlo Hhi].
    destruct (Z.leb_spec word_num 0) as [?|_]; [lia|].
    destruct (Z.ltb_spec (Z.of_nat (length parts)) word_num) as [?|_]; [lia|]. simpl.
    by rewrite lslice_prefix, lslice_suffix by lia.
  - intros [Hlo Hhi].
    destruct (Z.leb_spec word_num 0) as [?|_]; [lia|].
    destruct (Z.ltb_spec (Z.of_nat (length parts)) word_num) as [?|_]; [lia|]. simpl.
    rewrite lslice_prefix, lslice_suffix by lia.
    rewrite Z.add_0_r, list.take_drop. by rewrite Hjoin.
  - intros [H|H].
    + destruct (Z.leb_spec word_num 0) as [_|?]; [done | lia].
    + destruct (Z.leb_spec word_num 0) as [_|_]; [done|].
      destruct (Z.ltb_spec (Z.of_nat (length parts)) word_num) as [_|?]; [done | lia].
Qed.

Lemma delword_parts_witness :
  Py.split "a,b,c,d" "," = Return ["a"; "b"; "c"; "d"] /\ 0 <= 2 /\
  RexxStrings.delword "a,b,c,d" 3 2 "," = Return (Py.join "," ["a"; "b"]) /\
  RexxStrings.delword "a,b,c,d" 3 0 "," = Return "a,b,c,d" /\
  RexxStrings.delword "a,b,c,d" 9 2 "," = Return "a,b,c,d".
Proof.
  assert (H1 : Py.split "a,b,c,d" "," = Return ["a"; "b"; "c"; "d"]) by reflexivity.
  assert (H2 : 0 <= 2) by lia.
  split; [exact H1|]. split; [exact H2|].
  destruct (delword_parts "a,b,c,d" "," 3 2 _ H1 H2) as (_ & Hin & Hzero & _).
  destruct (delword_parts "a,b,c,d" "," 9 2 _ H1 H2) as (_ & _ & _ & Hout).
  split; [apply Hin; simpl; lia|]. split; [apply Hzero; simpl; lia|].
  apply Hout. right. simpl. lia.
Defined.

(** ** Replacing *)

Lemma replace_empty_nothing s : Py.replace_empty "" s = s.
Proof. induction s as [|c s IH]; [done|]. simpl. by rewrite app_empty_l, IH. Qed.

(** With [parts] what [s.split(old)] returns, [changestr] puts the new
    string where [split] cuts: the result is the parts joined by the new
    string.  Replacing a string by itself changes nothing. *)
Theorem changestr_joins_parts (old new s : string) (parts : list string) :
  Py.split s old = Return parts ->
  Py.join old parts = s /\
  RexxStrings.changestr old new s = Py.join new parts /\
  RexxStrings.changestr old old s = s.
Proof.
  intros Hsplit. destruct (split_Return _ _ _ Hsplit) as [Hold ->].
  unfold RexxStrings.changestr, Py.replace.
  destruct old as [|a old]; [done|].
  rewrite !replace_from_join_split by done.
  by rewrite join_split_from.
Qed.

Lemma changestr_joins_parts_witness :
  Py.split "aaa" "aa" = Return [""; "a"] /\
  Py.join "aa" [""; "a"] = "aaa" /\
  RexxStrings.changestr "aa" "b" "aaa" = Py.join "b" [""; "a"] /\
  RexxStrings.changestr "aa" "aa" "aaa" = "aaa".
Proof.
  assert (H : Py.split "aaa" "aa" = Return [""; "a"]) by reflexivity.
  split; [exact H|]. exact (changestr_joins_parts "aa" "b" "aaa" _ H).
Defined.

(** [changestr] with an empty string to find puts the new string before
    every character and after the last one. *)
Theorem changestr_empty_old (new s : string) :
  PyStr.len (RexxStrings.changestr "" new s)
  = PyStr.len s + (PyStr.len s + 1) * PyStr.len new /\
  RexxStrings.changestr "" "" s = s /\
  Py.startswith (RexxStrings.changestr "" new s) new = true.
Proof.
  unfold RexxStrings.changestr, Py.replace, PyStr.len. split; [|split].
  - induction s as [|c s IH]; simpl; [lia|].
    rewrite length_app'. simpl. lia.
  - apply replace_empty_nothing.
  - apply startswith_app. destruct s as [|c s]; simpl.
    + exists "". by rewrite app_empty_r.
    + by eexists.
Qed.

(** ** Finding a string *)

Lemma occurs_at_startswith needle haystack (k : nat) :
  occurs_at needle haystack (Z.of_nat k + 1)
  <-> (k <= String.length haystack)%nat /\
      Py.startswith (PyStr.drop k haystack) needle = true.
Proof.
  unfold occurs_at, PyStr.len. split.
  - intros (pre & post & -> & Hpre).
    assert (k = String.length pre) as -> by lia.
    rewrite drop_app_length, length_app'. split; [lia|].
    apply startswith_app. by exists post.
  - intros [Hk [t Ht]%startswith_app].
    exists (PyStr.take k haystack), t. rewrite <- Ht, take_drop, length_take.
    split; [done | lia].
Qed.

Lemma find_first_spec s sub :
  match Py.find_first s sub with
  | Some k =>
      0 <= k <= PyStr.len s /\
      Py.startswith (PyStr.drop (Z.to_nat k) s) sub = true /\
      forall j : nat, Z.of_nat j < k -> Py.startswith (PyStr.drop j s) sub = false
  | None =>
      forall j : nat, (j <= String.length s)%nat ->
        Py.startswith (PyStr.drop j s) sub = false
  end.
Proof.
  unfold PyStr.len. induction s as [|c s IH].
  - change (Py.find_first "" sub)
      with (if Py.startswith "" sub then Some 0 else None).
    destruct (Py.startswith "" sub) eqn:E.
    + split; [done|]. split; [done|]. intros j Hj. lia.
    + intros j Hj. simpl in Hj. by replace j with 0%nat by lia.
  - change (Py.find_first (String c s) sub)
      with (if Py.startswith (String c s) sub then Some 0
            else Z.succ <$> Py.find_first s sub).
    destruct (Py.startswith (String c s) sub) eqn:E.
    + split; [simpl; lia|]. split; [done|]. intros j Hj. lia.
    + destruct (Py.find_first s sub) as [k|]; simpl.
      * destruct IH as ([Hk0 Hk] & Hat & Hbefore). split; [lia|]. split.
        -- replace (Z.to_nat (Z.succ k)) with (S (Z.to_nat k)) by lia. done.
        -- intros [|j] Hj; [done|]. simpl. apply Hbefore. lia.
      * intros [|j] Hj; [done|]. simpl. apply IH. simpl in Hj. lia.
Qed.

(** [pos] with a start of 1 or more returns the first position from the
    start on at which the needle is in the haystack, and 0 when there is
    none. *)
Theorem pos_first_occurrence (needle haystack : string) (start : Z) :
  1 <= start ->
  let p := RexxStrings.pos needle haystack start in
  (p = 0 /\ forall q, start <= q -> ~ occurs_at needle haystack q) \/
  (start <= p /\ occurs_at needle haystack p /\
   forall q, start <= q < p -> ~ occurs_at needle haystack q).
Proof.
  intros Hstart. unfold RexxStrings.pos, Py.find. simpl.
  destruct (Z.ltb_spec (start - 1) 0) as [?|_]; [lia|].
  assert (Hocc : forall q, start <= q -> occurs_at needle haystack q ->
            (Z.to_nat (q - 1) <= String.length haystack)%nat /\
            Py.startswith
              (PyStr.drop (Z.to_nat (q - start))
                 (PyStr.drop (Z.to_nat (start - 1)) haystack)) needle = true).
  { intros q Hq Hat. replace q with (Z.of_nat (Z.to_nat (q - 1)) + 1) in Hat by lia.
    apply occurs_at_startswith in Hat as [Hlen Hat]. split; [done|].
    rewrite drop_drop'. by replace (Z.to_nat (start - 1) + Z.to_nat (q - start))%nat
      with (Z.to_nat (q - 1)) by lia. }
  destruct (Z.ltb_spec (PyStr.len haystack) (start - 1)) as [Hpast|Hin].
  - left. split; [done|]. intros q Hq Hat.
    destruct (Hocc q Hq Hat) as [Hlen _]. unfold PyStr.len in Hpast. lia.
  - pose proof (find_first_spec (PyStr.drop (Z.to_nat (start - 1)) haystack) needle) as H.
    unfold PyStr.len in *. rewrite length_drop in H.
    destruct (Py.find_first _ needle) as [k|].
    + destruct H as ([Hk0 Hk] & Hat & Hbefore). right.
      destruct (Z.eqb_spec (start - 1 + k) (-1)) as [?|_]; [lia|].
      split; [lia|]. split.
      * replace (start - 1 + k + 1)
          with (Z.of_nat (Z.to_nat (start - 1) + Z.to_nat k) + 1) by lia.
        apply occurs_at_startswith. rewrite <- drop_drop'. split; [lia | done].
      * intros q Hq Hq'. destruct (Hocc q ltac:(lia) Hq') as [_ Hq''].
        rewrite Hbefore in Hq''; [done | lia].
    + left. split; [done|]. intros q Hq Hat. destruct (Hocc q Hq Hat) as [Hlen Hq'].
      rewrite H in Hq'; [done | lia].
Qed.

Lemma pos_first_occurrence_witness :
  1 <= 3 /\
  let p := RexxStrings.pos "b" "abcb" 3 in
  (p = 0 /\ forall q, 3 <= q -> ~ occurs_at "b" "abcb" q) \/
  (3 <= p /\ occurs_at "b" "abcb" p /\
   forall q, 3 <= q < p -> ~ occurs_at "b" "abcb" q).
Proof.
  assert (H : 1 <= 3) by lia.
  split; [exact H|]. exact (pos_first_occurrence "b" "abcb" 3 H).
Defined.

(** ** Stripping *)

Lemma all_chars_nil p : all_chars p "".
Proof. constructor. Qed.

Lemma all_chars_cons p c s : all_chars p (String c s) <-> p c = true /\ all_chars p s.
Proof. unfold all_chars. simpl. apply (Forall_cons (fun a => p a = true)). Qed.

Lemma lstrip_by_split p s :
  exists pre, s = pre +:+ Py.lstrip_by p s /\ all_chars p pre.
Proof.
  induction s as [|c s (pre & Hs & Hpre)]; simpl.
  - exists "". split; [done | apply all_chars_nil].
  - destruct (p c) eqn:E.
    + exists (String c pre). rewrite app_cons, <- Hs. split; [done|].
      by apply all_chars_cons.
    + exists "". split; [done | apply all_chars_nil].
Qed.

Lemma all_chars_app_char p s c :
  all_chars p s -> p c = true -> all_chars p (s +:+ String c "").
Proof.
  induction s as [|a s IH]; intros Hs Hc.
  - apply all_chars_cons. split; [done | apply all_chars_nil].
  - rewrite app_cons. apply all_chars_cons. apply all_chars_cons in Hs as [Ha Hs].
    split; [done | by apply IH].
Qed.

Lemma rstrip_by_split p s :
  exists post, s = Py.rstrip_by p s +:+ post /\ all_chars p post.
Proof.
  induction s as [|c s (post & Hs & Hpost)]; simpl.
  - exists "". split; [done | apply all_chars_nil].
  - destruct (Py.rstrip_by p s) as [|a r] eqn:E.
    + destruct (p c) eqn:Hc.
      * exists (String c post). rewrite app_empty_l in Hs. subst post.
        split; [done | by apply all_chars_cons].
      * exists post. rewrite app_empty_l in Hs. by subst post.
    + exists post. by rewrite app_cons, <- Hs.
Qed.

Lemma lstrip_by_stable p c s : p c = false -> Py.lstrip_by p (String c s) = String c s.
Proof. intros E. simpl. by rewrite E. Qed.

Lemma lstrip_by_idemp p s : Py.lstrip_by p (Py.lstrip_by p s) = Py.lstrip_by p s.
Proof.
  induction s as [|c s IH]; simpl; [done|].
  destruct (p c) eqn:E; [done | by apply lstrip_by_stable].
Qed.

Lemma rstrip_by_idemp p s : Py.rstrip_by p (Py.rstrip_by p s) = Py.rstrip_by p s.
Proof.
  induction s as [|c s IH]; simpl; [done|].
  destruct (Py.rstrip_by p s) as [|a r] eqn:E.
  - destruct (p c) eqn:Hc; simpl; [done | by rewrite Hc].
  - change (Py.rstrip_by p (String c (String a r)))
      with (match Py.rstrip_by p (String a r) with
            | EmptyString => if p c then "" else String c ""
            | t => String c t
            end).
    by rewrite IH.
Qed.

Lemma lstrip_rstrip_stable p s :
  Py.lstrip_by p s = s -> Py.lstrip_by p (Py.rstrip_by p s) = Py.rstrip_by p s.
Proof.
  destruct s as [|c s]; [done|]. simpl. destruct (p c) eqn:E.
  - intros H. exfalso. destruct (lstrip_by_split p s) as (pre & Hs & _).
    apply (f_equal String.length) in H. apply (f_equal String.length) in Hs.
    rewrite length_app' in Hs. simpl in H. lia.
  - intros _. destruct (Py.rstrip_by p s); simpl; by rewrite E.
Qed.

(** [strip] takes characters of the set [char] off the front (mode L), off
    the end (mode T) or off both (mode B): what it takes off is made of
    characters of the set, and what it returns has none left to take off
    on that side.  Any other mode is a [ValueError]. *)
Theorem strip_modes (s mode char : string) :
  (mode = "L" ->
   exists pre r, RexxStrings.strip s mode char = Return r /\
     s = pre +:+ r /\ all_chars (Py.among char) pre /\
     Py.lstrip_by (Py.among char) r = r) /\
  (mode = "T" ->
   exists r post, RexxStrings.strip s mode char = Return r /\
     s = r +:+ post /\ all_chars (Py.among char) post /\
     Py.rstrip_by (Py.among char) r = r) /\
  (mode = "B" ->
   exists pre r post, RexxStrings.strip s mode char = Return r /\
     s = pre +:+ r +:+ post /\
     all_chars (Py.among char) pre /\ all_chars (Py.among char) post /\
     Py.lstrip_by (Py.among char) r = r /\ Py.rstrip_by (Py.among char) r = r) /\
  (mode <> "L" -> mode <> "T" -> mode <> "B" ->
   RexxStrings.strip s mode char
   = Raise (ValueError "Invalid mode. Use 'L','T', or 'B'")).
Proof.
  set (p := Py.among char). split; [|split; [|split]].
  - intros ->. destruct (lstrip_by_split p s) as (pre & Hs & Hpre).
    exists pre, (Py.lstrip_by p s). split; [done|]. split; [done|].
    split; [done | apply lstrip_by_idemp].
  - intros ->. destruct (rstrip_by_split p s) as (post & Hs & Hpost).
    exists (Py.rstrip_by p s), post. split; [done|]. split; [done|].
    split; [done | apply rstrip_by_idemp].
  - intros ->. destruct (lstrip_by_split p s) as (pre & Hs & Hpre).
    destruct (rstrip_by_split p (Py.lstrip_by p s)) as (post & Hr & Hpost).
    exists pre, (Py.strip_by p s), post. unfold Py.strip_by.
    split; [done|]. split; [by rewrite <- Hr|]. split; [done|]. split; [done|].
    split; [apply lstrip_rstrip_stable, lstrip_by_idemp | apply rstrip_by_idemp].
  - intros HL HT HB. unfold RexxStrings.strip.
    destruct (String.eqb_spec mode "L") as [?|_]; [done|].
    destruct (String.eqb_spec mode "T") as [?|_]; [done|].
    by destruct (String.eqb_spec mode "B") as [?|_].
Qed.

Lemma strip_modes_witness :
  "B" = "B" /\
  exists pre r post, RexxStrings.strip "xyhixy" "B" "yx" = Return r /\
    "xyhixy" = pre +:+ r +:+ post /\
    all_chars (Py.among "yx") pre /\ all_chars (Py.among "yx") post /\
    Py.lstrip_by (Py.among "yx") r = r /\ Py.rstrip_by (Py.among "yx") r = r.
Proof.
  split; [reflexivity|].
  destruct (strip_modes "xyhixy" "B" "yx") as (_ & _ & H & _). exact (H eq_refl).
Defined.

(** ** Verifying, comparing, padding and repeating *)

Lemma verify_from_spec (hit : ascii -> bool) s ref_chars mode i :
  (forall c, (String.eqb mode "N" && negb (PyStr.mem c ref_chars)
              || String.eqb mode "M" && PyStr.mem c ref_chars) = hit c) ->
  1 <= i ->
  (RexxStrings.verify_from s ref_chars mode i = 0 /\
   all_chars (fun c => negb (hit c)) s) \/
  (exists pre c rest,
      s = pre +:+ String c rest /\
      RexxStrings.verify_from s ref_chars mode i = i + PyStr.len pre /\
      all_chars (fun c => negb (hit c)) pre /\ hit c = true).
Proof.
  intros Hhit. revert i. induction s as [|c s IH]; intros i Hi; simpl.
  - left. split; [done | apply all_chars_nil].
  - rewrite Hhit. destruct (hit c) eqn:E.
    + right. exists "", c, s. unfold PyStr.len. simpl.
      split; [done|]. split; [lia|]. split; [apply all_chars_nil | done].
    + destruct (IH (i + 1)) as [[H0 Hall]|(pre & a & rest & -> & Hv & Hpre & Ha)]; [lia| |].
      * left. split; [done|]. apply all_chars_cons. by rewrite E.
      * right. exists (String c pre), a, rest. rewrite Hv. unfold PyStr.len. simpl.
        split; [done|]. split; [lia|]. split; [|done].
        apply all_chars_cons. by rewrite E.
Qed.

(** [verify] in mode N returns the position of the first character that is
    not among the reference characters, in mode M of the first that is,
    and 0 when there is none; in any other mode it returns 0. *)
Theorem verify_first_position (s ref_chars mode : string) :
  let hit c :=
    if String.eqb mode "N" then negb (PyStr.mem c ref_chars)
    else if String.eqb mode "M" then PyStr.mem c ref_chars
    else false in
  (RexxStrings.verify s ref_chars mode = 0 /\ all_chars (fun c => negb (hit c)) s) \/
  (exists pre c rest,
      s = pre +:+ String c rest /\
      RexxStrings.verify s ref_chars mode = PyStr.len pre + 1 /\
      all_chars (fun c => negb (hit c)) pre /\ hit c = true).
Proof.
  intros hit.
  destruct (verify_from_spec hit s ref_chars mode 1) as [H|(pre & c & rest & H1 & H2 & H3)].
  - intros c. subst hit. simpl.
    destruct (String.eqb_spec mode "N") as [->|_]; simpl; [by rewrite orb_false_r|].
    by destruct (String.eqb mode "M").
  - lia.
  - by left.
  - right. exists pre, c, rest. unfold RexxStrings.verify. rewrite H2.
    split; [done|]. split; [lia | done].
Qed.

Lemma times_length s n : String.length (Py.times s n) = (n * String.length s)%nat.
Proof. induction n as [|n IH]; [done|]. simpl. rewrite length_app'. lia. Qed.

Lemma times_add s a b : Py.times s (a + b) = Py.times s a +:+ Py.times s b.
Proof. induction a as [|a IH]; [done|]. simpl. by rewrite IH, app_assoc'. Qed.

Lemma times_char_all c n : all_chars (Ascii.eqb c) (Py.times (String c "") n).
Proof.
  induction n as [|n IH]; [apply all_chars_nil|]. simpl.
  apply all_chars_cons. split; [apply Ascii.eqb_refl | done].
Qed.

(** [copies] of a string [n] times is [n] times as long, is empty for an
    [n] of 0 or less, and the copies of two counts that are not negative
    add up. *)
Theorem copies_counts (s : string) (n m : Z) :
  PyStr.len (RexxStrings.copies s n) = Z.max 0 n * PyStr.len s /\
  (n <= 0 -> RexxStrings.copies s n = "") /\
  (0 <= n -> 0 <= m ->
   RexxStrings.copies s (n + m) = RexxStrings.copies s n +:+ RexxStrings.copies s m).
Proof.
  unfold RexxStrings.copies, Py.repeat, PyStr.len. split; [|split].
  - rewrite times_length. lia.
  - intros H. by replace (Z.to_nat n) with 0%nat by lia.
  - intros Hn Hm. by rewrite Z2Nat.inj_add, times_add by lia.
Qed.

Lemma copies_counts_witness :
  -2 <= 0 /\ RexxStrings.copies "ab" (-2) = "".
Proof.
  assert (H : -2 <= 0) by lia. split; [exact H|].
  destruct (copies_counts "ab" (-2) 0) as (_ & Hneg & _). exact (Hneg H).
Defined.

Lemma repeat_char_length c n :
  PyStr.len (Py.repeat (String c "") n) = Z.max 0 n.
Proof. unfold PyStr.len, Py.repeat. rewrite times_length. simpl. lia. Qed.

Lemma ljust_length s width pad :
  PyStr.len (Py.ljust s width pad) = Z.max (PyStr.len s) width.
Proof.
  pose proof (repeat_char_length pad (width - PyStr.len s)) as H.
  unfold Py.ljust, PyStr.len in *. rewrite length_app'. lia.
Qed.

Lemma first_difference_spec s1 s2 i :
  String.length s1 = String.length s2 ->
  (RexxStrings.first_difference s1 s2 i = 0 /\ s1 = s2) \/
  (exists pre c1 r1 c2 r2,
      s1 = pre +:+ String c1 r1 /\ s2 = pre +:+ String c2 r2 /\ c1 <> c2 /\
      RexxStrings.first_difference s1 s2 i = i + PyStr.len pre).
Proof.
  revert s2 i. induction s1 as [|c1 s1 IH]; intros [|c2 s2] i Hlen; try done.
  - by left.
  - simpl. destruct (Ascii.eqb_spec c1 c2) as [->|Hne].
    + destruct (IH s2 (i + 1)) as [[H0 ->]|(pre & a1 & r1 & a2 & r2 & -> & -> & Ha & Hd)].
      * simpl in Hlen. lia.
      * by left.
      * right. exists (String c2 pre), a1, r1, a2, r2. rewrite Hd.
        unfold PyStr.len. simpl. repeat split; [done | lia].
    + right. exists "", c1, s1, c2, s2. unfold PyStr.len. simpl.
      repeat split; [done | lia].
Qed.

Lemma first_difference_sym s1 s2 i :
  RexxStrings.first_difference s1 s2 i = RexxStrings.first_difference s2 s1 i.
Proof.
  revert s2 i. induction s1 as [|c1 s1 IH]; intros [|c2 s2] i; simpl; try done.
  rewrite (Ascii.eqb_sym c2 c1). by rewrite IH.
Qed.

(** [compare] fills the shorter string with the fill character up to the
    length of the longer one and returns the first position at which the
    two differ, or 0 when they are the same; the order of the two strings
    plays no part. *)
Theorem compare_first_difference (string1 string2 : string) (pad : ascii) :
  let width := Z.max (PyStr.len string1) (PyStr.len string2) in
  let s1 := Py.ljust string1 width pad in
  let s2 := Py.ljust string2 width pad in
  RexxStrings.compare string1 string2 pad = RexxStrings.compare string2 string1 pad /\
  ((RexxStrings.compare string1 string2 pad = 0 /\ s1 = s2) \/
   (exists pre c1 r1 c2 r2,
       s1 = pre +:+ String c1 r1 /\ s2 = pre +:+ String c2 r2 /\ c1 <> c2 /\
       RexxStrings.compare string1 string2 pad = PyStr.len pre + 1)).
Proof.
  intros width s1 s2. unfold RexxStrings.compare. fold width. fold s1. fold s2.
  split.
  - rewrite (Z.max_comm (PyStr.len string2)). fold width. apply first_difference_sym.
  - destruct (first_difference_spec s1 s2 1)
      as [H|(pre & c1 & r1 & c2 & r2 & H1 & H2 & H3 & H4)].
    + pose proof (ljust_length string1 width pad) as L1.
      pose proof (ljust_length string2 width pad) as L2.
      fold s1 in L1. fold s2 in L2. unfold PyStr.len in *. lia.
    + by left.
    + right. exists pre, c1, r1, c2, r2. rewrite H4. repeat split; try done. lia.
Qed.

(** [left] with a length of 0 or more returns that many characters: the
    first ones of the string, then the fill character.  With a negative
    length it returns the string without that many of its last
    characters. *)
Theorem left_width (s : string) (length : Z) (pad : ascii) :
  (0 <= length ->
   PyStr.len (RexxStrings.left s length pad) = length /\
   exists fill,
     RexxStrings.left s length pad = PyStr.take (Z.to_nat length) s +:+ fill /\
     all_chars (Ascii.eqb pad) fill) /\
  (length < 0 ->
   RexxStrings.left s length pad = PyStr.take (Z.to_nat (PyStr.len s + length)) s).
Proof.
  unfold RexxStrings.left. split.
  - intros Hl. destruct (Z.leb_spec length (PyStr.len s)) as [H|H].
    + rewrite slice_prefix by done. unfold PyStr.len in *. rewrite length_take.
      split; [lia|]. exists "".
      split; [by rewrite app_empty_r | apply all_chars_nil].
    + split; [rewrite ljust_length; lia|].
      exists (Py.repeat (String pad "") (length - PyStr.len s)). unfold Py.ljust.
      rewrite take_ge by (unfold PyStr.len in H; lia).
      split; [done | apply times_char_all].
  - intros Hl. destruct (Z.leb_spec length (PyStr.len s)) as [_|H];
      [|unfold PyStr.len in H; lia].
    unfold PyStr.slice, PyStr.bound, PyStr.len. simpl.
    destruct (Z.ltb_spec length 0) as [_|?]; [|lia].
    set (n := Z.of_nat (String.length s)).
    destruct (Z.ltb_spec (length + n) 0) as [?|?].
    + by replace (Z.to_nat (n + length)) with 0%nat by lia.
    + destruct (Z.ltb_spec n (length + n)) as [?|_]; [lia|].
      do 2 f_equal. lia.
Qed.

Lemma left_width_witness :
  0 <= 5 /\
  PyStr.len (RexxStrings.left "ab" 5 "*") = 5 /\
  exists fill,
    RexxStrings.left "ab" 5 "*" = PyStr.take (Z.to_nat 5) "ab" +:+ fill /\
    all_chars (Ascii.eqb "*") fill.
Proof.
  assert (H : 0 <= 5) by lia. split; [exact H|].
  destruct (left_width "ab" 5 "*") as [Hpos _]. exact (Hpos H).
Defined.

(** [right] with a length of 1 or more returns that many characters: the
    fill character, then the last ones of the string.  With a length of 0 it
    returns the whole string, and with a negative length the string without
    that many of its first characters. *)
Theorem right_width (s : string) (length : Z) (pad : ascii) :
  (1 <= length ->
   PyStr.len (RexxStrings.right s length pad) = length /\
   exists fill,
     RexxStrings.right s length pad
     = fill +:+ PyStr.drop (Z.to_nat (PyStr.len s - length)) s /\
     all_chars (Ascii.eqb pad) fill) /\
  RexxStrings.right s 0 pad = s /\
  (length < 0 -> RexxStrings.right s length pad = PyStr.drop (Z.to_nat (- length)) s).
Proof.
  unfold RexxStrings.right. split; [|split].
  - intros Hl. destruct (Z.leb_spec length (PyStr.len s)) as [H|H].
    + assert (Hs : PyStr.slice s (Some (- length)) None
                   = PyStr.drop (Z.to_nat (PyStr.len s - length)) s).
      { unfold PyStr.slice, PyStr.bound, PyStr.len in *. simpl.
        set (n := Z.of_nat (String.length s)) in *.
        destruct (Z.ltb_spec (- length) 0) as [_|?]; [|lia].
        destruct (Z.ltb_spec (- length + n) 0) as [?|_]; [lia|].
        destruct (Z.ltb_spec n (- length + n)) as [?|_]; [lia|].
        replace (Z.to_nat (- length + n)) with (Z.to_nat (n - length)) by lia.
        apply take_ge. rewrite length_drop. lia. }
      rewrite Hs. unfold PyStr.len in *. rewrite length_drop.
      split; [lia|]. exists "". split; [done | apply all_chars_nil].
    + pose proof (repeat_char_length pad (length - PyStr.len s)) as Hfill.
      unfold Py.rjust, PyStr.len in *. rewrite length_app'. split; [lia|].
      exists (Py.repeat (String pad "") (length - Z.of_nat (String.length s))).
      replace (Z.to_nat (Z.of_nat (String.length s) - length)) with 0%nat by lia.
      split; [done | apply times_char_all].
  - destruct (Z.leb_spec 0 (PyStr.len s)) as [_|H]; [|unfold PyStr.len in H; lia].
    by rewrite slice_suffix.
  - intros Hl. destruct (Z.leb_spec length (PyStr.len s)) as [_|H];
      [|unfold PyStr.len in H; lia].
    by rewrite slice_suffix by lia.
Qed.

Lemma right_width_witness :
  1 <= 2 /\
  PyStr.len (RexxStrings.right "hello" 2 " ") = 2 /\
  exists fill,
    RexxStrings.right "hello" 2 " "
    = fill +:+ PyStr.drop (Z.to_nat (PyStr.len "hello" - 2)) "hello" /\
    all_chars (Ascii.eqb " ") fill.
Proof.
  assert (H : 1 <= 2) by lia. split; [exact H|].
  destruct (right_width "hello" 2 " ") as [Hpos _]. exact (Hpos H).
Defined.

(** ** How the file operations end *)


(** ** What a session keeps *)

Lemma scan_from c file t n x : scan file c t = Some (n, x) -> c <= n.
Proof.
  revert c. induction file as [|y file IH]; intros c; simpl; [done|].
  destruct (Z.eqb_spec c t) as [->|_]; [by intros [= <- _]|].
  intros H. apply IH in H. lia.
Qed.

Lemma run_kept e v c self w : kept e v self -> kept e v (run c self w).1.2.
Proof.
  intros (He & Hv & Hn & Hpos).
  destruct c as [file_path line_number exit_on_eof|file_path|file_path s append]; simpl.
  - unfold linein.
    destruct (nodes w !! absolute w file_path) as [[|acc text]|]; simpl; try done.
    assert (H0 : kept e v
              (match _file_positions self !! absolute w file_path with
               | None => set_position self (absolute w file_path) 0
               | Some _ => self
               end)).
    { destruct (_file_positions self !! absolute w file_path); [done|].
      repeat split; try done. simpl. intros k n.
      destruct (decide (absolute w file_path = k)) as [->|Hne].
      - rewrite lookup_insert_eq. intros [= <-]. lia.
      - rewrite lookup_insert_ne by done. apply Hpos. }
    destruct (match _file_positions self !! absolute w file_path with
              | None => _ | Some _ => self end) as [m e' v' n'].
    destruct H0 as (He' & Hv' & Hn' & Hpos'). simpl in *.
    destruct (open_read w (absolute w file_path)) as [[]|content]; simpl; try done.
    destruct (scan (PyFile.lines content) 1 _) as [[current_line line]|] eqn:Hscan; simpl.
    + apply scan_from in Hscan. repeat split; simpl; try done; [lia|].
      intros k n. destruct (decide (absolute w file_path = k)) as [->|Hne].
      * rewrite lookup_insert_eq. intros [= <-]. lia.
      * rewrite lookup_insert_ne by done. apply Hpos'.
    + destruct line_number; simpl; destruct (exit_on_eof && e'); simpl;
        repeat split; simpl; try done.
      all: intros k n; destruct (decide (absolute w file_path = k)) as [->|Hne];
        [rewrite lookup_insert_eq; intros [= <-]; lia
        |rewrite lookup_insert_ne by done; apply Hpos'].
  - unfold rm, int_result. by crunch.
  - unfold lineout, int_result. by crunch.
Qed.

(** In every state a session reaches, the two switches are as they were set
    at construction, [next_record] is not negative and no stored position is
    negative. *)
Theorem session_keeps_switches_and_positions (exit_on_error verbose : bool)
    (w0 : world) (K : gset string) (self : RexxFunctions.t) (w : world) :
  reachable exit_on_error verbose w0 K self w ->
  RexxFunctions.exit_on_error self = exit_on_error /\
  RexxFunctions.verbose self = verbose /\
  0 <= next_record self /\
  forall k n, _file_positions self !! k = Some n -> 0 <= n.
Proof.
  induction 1 as [|K self w c r self' w' _ IH Hrun].
  - by repeat split.
  - pose proof (run_kept exit_on_error verbose c self w IH) as H.
    by rewrite Hrun in H.
Qed.

Lemma session_keeps_switches_and_positions_witness :
  let c := Linein "/data/in.txt" (Some 2) false in
  let r := run c (init false true) sample in
  reachable false true sample (∅ ∪ registers c sample) r.1.2 r.2 /\
  RexxFunctions.exit_on_error r.1.2 = false /\
  RexxFunctions.verbose r.1.2 = true /\
  0 <= next_record r.1.2 /\
  forall k n, _file_positions r.1.2 !! k = Some n -> 0 <= n.
Proof.
  intros c r.
  assert (H : reachable false true sample (∅ ∪ registers c sample) r.1.2 r.2).
  { apply (reach_call false true sample ∅ (init false true) sample c (VStr "beta")).
    - apply reach_init.
    - vm_compute. reflexivity. }
  split; [exact H|].
  exact (session_keeps_switches_and_positions false true sample _ _ _ H).
Defined.

(** ** Deleting and writing *)






(** ** Reading a numbered line *)

Lemma linein_positional_line self w file_path exit_on_eof text k l :
  nodes w !! absolute w file_path = Some (Regular Granted text) ->
  1 <= k ->
  PyFile.lines text !! Z.to_nat (k - 1) = Some l ->
  exists self',
    linein self w file_path (Some k) exit_on_eof
    = (Return (VStr (PyStr.rstrip PyFile.LF l)), self', w) /\
    _file_positions self' !! absolute w file_path = Some k /\
    next_record self' = k /\
    exit_on_error self' = exit_on_error self /\
    verbose self' = verbose self.
Proof.
  intros Hnode Hk Hl. unfold linein. rewrite Hnode.
  rewrite open_read_absolute, (open_read_granted _ _ _ Hnode).
  rewrite scan_lookup, Hl by lia. simpl.
  eexists. split; [reflexivity|]. simpl. rewrite lookup_insert_eq.
  by destruct (_file_positions self !! absolute w file_path).
Qed.

(** A read of line [k] that finds the line returns it without its
    terminator and leaves the position at [k]: the sequential read that
    follows returns line [k + 1], or meets the end of the file when [k] was
    the last line. *)
Theorem sequential_read_follows_positional (self : RexxFunctions.t) (w : world)
    (file_path : string) (k : Z) (exit_on_eof exit_on_eof' : bool)
    (text l : string) :
  nodes w !! absolute w file_path = Some (Regular Granted text) ->
  1 <= k ->
  PyFile.lines text !! Z.to_nat (k - 1) = Some l ->
  let r := linein self w file_path (Some k) exit_on_eof in
  r.1.1 = Return (VStr (PyStr.rstrip PyFile.LF l)) /\
  r.2 = w /\
  _file_positions r.1.2 !! absolute w file_path = Some k /\
  (linein r.1.2 r.2 file_path None exit_on_eof').1.1
  = match PyFile.lines text !! Z.to_nat k with
    | Some l' => Return (VStr (PyStr.rstrip PyFile.LF l'))
    | None => if exit_on_eof' && exit_on_error self then Exit 0
              else Return (VInt END_OF_FILE)
    end.
Proof.
  intros Hnode Hk Hl r.
  destruct (linein_positional_line self w file_path exit_on_eof text k l Hnode Hk Hl)
    as (self' & Hrun & Hkey & _ & He & _).
  subst r. rewrite Hrun. simpl. repeat split; try done.
  assert (Hc : cursor (_file_positions self') (absolute w file_path) = k)
    by (unfold cursor; by rewrite Hkey).
  destruct (PyFile.lines text !! Z.to_nat k) as [l'|] eqn:Hnext.
  - destruct (linein_sequential_line self' w file_path exit_on_eof' text k l' Hnode Hc)
      as (? & -> & _); [lia | done | done].
  - destruct (linein_sequential_eof self' w file_path exit_on_eof' text k Hnode Hc)
      as (? & -> & _); [lia | done |]. by rewrite He.
Qed.

Lemma sequential_read_follows_positional_witness :
  let text := "alpha" +:+ PyFile.nl +:+ "beta" +:+ PyFile.nl in
  let r := linein (init false true) sample "/data/in.txt" (Some 1) false in
  nodes sample !! absolute sample "/data/in.txt" = Some (Regular Granted text) /\
  1 <= 1 /\
  PyFile.lines text !! Z.to_nat (1 - 1) = Some ("alpha" +:+ PyFile.nl) /\
  r.1.1 = Return (VStr (PyStr.rstrip PyFile.LF ("alpha" +:+ PyFile.nl))) /\
  r.2 = sample /\
  _file_positions r.1.2 !! absolute sample "/data/in.txt" = Some 1 /\
  (linein r.1.2 r.2 "/data/in.txt" None false).1.1
  = match PyFile.lines text !! Z.to_nat 1 with
    | Some l' => Return (VStr (PyStr.rstrip PyFile.LF l'))
    | None => if false && exit_on_error (init false true) then Exit 0
              else Return (VInt END_OF_FILE)
    end.
Proof.
  assert (H1 : nodes sample !! absolute sample "/data/in.txt"
               = Some (Regular Granted ("alpha" +:+ PyFile.nl +:+ "beta" +:+ PyFile.nl)))
    by (vm_compute; reflexivity).
  assert (H2 : 1 <= 1) by lia.
  assert (H3 : PyFile.lines ("alpha" +:+ PyFile.nl +:+ "beta" +:+ PyFile.nl)
                 !! Z.to_nat (1 - 1) = Some ("alpha" +:+ PyFile.nl))
    by (vm_compute; reflexivity).
  split; [exact H1|]. split; [exact H2|]. split; [exact H3|].
  exact (sequential_read_follows_positional (init false true) sample "/data/in.txt" 1
           false false _ _ H1 H2 H3).
Defined.

(** Whatever line [linein] returns is a line of the file at that path, a
    readable regular file: the line with the number asked for, or the one
    after the stored position; it holds no line feed and no carriage
    return, and the position is then the number of that line. *)
Theorem linein_line_is_from_file (self : RexxFunctions.t) (w : world)
    (file_path : string) (line_number : option Z) (exit_on_eof : bool)
    (line : string) :
  let key := absolute w file_path in
  let r := linein self w file_path line_number exit_on_eof in
  let k := match line_number with
           | Some n => n
           | None => cursor (_file_positions self) key + 1
           end in
  r.1.1 = Return (VStr line) ->
  exists text l,
    nodes w !! key = Some (Regular Granted text) /\
    1 <= k /\
    PyFile.lines text !! Z.to_nat (k - 1) = Some l /\
    line_of line l /\
    _file_positions r.1.2 !! key = Some k /\
    next_record r.1.2 = k.
Proof.
  intros key r k. subst r. unfold linein. fold key.
  destruct (nodes w !! key) as [[|acc text]|] eqn:Hnode; simpl;
    try (unfold fail; by destruct (exit_on_error self)).
  subst key. rewrite open_read_absolute. unfold open_read. rewrite Hnode.
  set (key := absolute w file_path) in *.
  assert (Htarget : match line_number with
                    | Some n => n
                    | None => _file_positions
                                (match _file_positions self !! key with
                                 | None => set_position self key 0
                                 | Some _ => self
                                 end) !!! key + 1
                    end = k).
  { subst k. destruct line_number; [done|]. by rewrite target_of_cursor. }
  rewrite Htarget. clearbody k.
  destruct acc; simpl; try (unfold fail;
    by destruct (exit_on_error match _file_positions self !! key with
                               | None => set_position self key 0
                               | Some _ => self end)).
  destruct (scan (PyFile.lines text) 1 k) as [[current_line content]|] eqn:Hscan; simpl.
  - intros [= <-]. pose proof (scan_found _ _ _ _ _ Hscan) as ->.
    pose proof (scan_from _ _ _ _ _ Hscan) as Hk.
    rewrite scan_lookup in Hscan by done.
    destruct (PyFile.lines text !! Z.to_nat (k - 1)) as [l|] eqn:Hl; [|done].
    injection Hscan as <-.
    exists text, l. split; [done|]. split; [done|]. split; [done|]. split.
    + pose proof (lines_shape text) as Hshape.
      rewrite Forall_lookup in Hshape. destruct (Hshape _ _ Hl) as [body Hbody].
      by rewrite (rstrip_line_of _ _ Hbody).
    + by rewrite lookup_insert_eq.
  - by destruct line_number, (exit_on_eof && _).
Qed.

Lemma linein_line_is_from_file_witness :
  let r := linein (init true true) sample "/data/in.txt" (Some 2) true in
  r.1.1 = Return (VStr "beta") /\
  exists text l,
    nodes sample !! absolute sample "/data/in.txt" = Some (Regular Granted text) /\
    1 <= 2 /\
    PyFile.lines text !! Z.to_nat (2 - 1) = Some l /\
    line_of "beta" l /\
    _file_positions r.1.2 !! absolute sample "/data/in.txt" = Some 2 /\
    next_record r.1.2 = 2.
Proof.
  assert (H : (linein (init true true) sample "/data/in.txt" (Some 2) true).1.1
              = Return (VStr "beta")) by (vm_compute; reflexivity).
  split; [exact H|].
  exact (linein_line_is_from_file (init true true) sample "/data/in.txt" (Some 2) true
           "beta" H).
Defined.

(** ** Writing, then reading *)








(** ** The readers side by side, again *)

(** On a readable file named by an absolute path, a sequential read of the
    current reader in a configuration that returns at the end of the file,
    and one of the earlier reader, return the same and leave the same
    dictionary and the same world. *)
Theorem sequential_readers_agree (not_found : string -> string)
    (self : RexxFunctions.t) (w : world) (file_path : string)
    (exit_on_eof : bool) (text : string) :
  is_absolute file_path = true ->
  nodes w !! file_path = Some (Regular Granted text) ->
  exit_on_eof && exit_on_error self = false ->
  let r := linein self w file_path None exit_on_eof in
  let l := Legacy.linein not_found (_file_positions self) w file_path None in
  r.1.1 = l.1.1 /\ _file_positions r.1.2 = l.1.2 /\ r.2 = l.2.
Proof.
  intros Habs Hnode Hflag.
  assert (Hp : absolute w file_path = file_path) by (unfold absolute; by rewrite Habs).
  assert (Hopen : open_read w file_path = inr text)
    by (apply open_read_granted; by rewrite Hp).
  unfold linein, Legacy.linein. simpl. rewrite Hp, Hnode, Hopen.
  destruct (_file_positions self !! file_path) as [n|] eqn:Hkey; simpl.
  - rewrite lookup_total_insert_eq.
    destruct (scan (PyFile.lines text) 1 (_file_positions self !!! file_path + 1))
      as [[current_line content]|] eqn:Hscan; simpl.
    + apply scan_found in Hscan as ->. done.
    + rewrite Hflag. simpl. by rewrite insert_insert_eq.
  - rewrite !lookup_total_insert_eq.
    destruct (scan (PyFile.lines text) 1 (0 + 1))
      as [[current_line content]|] eqn:Hscan; simpl.
    + apply scan_found in Hscan as ->. done.
    + rewrite Hflag. simpl. by rewrite !insert_insert_eq.
Qed.

Lemma sequential_readers_agree_witness :
  let self := init false true in
  let r := linein self sample "/data/in.txt" None true in
  let l := RexxFunctions_old2.linein (_file_positions self) sample "/data/in.txt" None in
  is_absolute "/data/in.txt" = true /\
  true && exit_on_error self = false /\
  r.1.1 = l.1.1 /\ _file_positions r.1.2 = l.1.2 /\ r.2 = l.2.
Proof.
  split; [reflexivity|]. split; [reflexivity|].
  apply (sequential_readers_agree
           (fun file_path => "File does not exist: " +:+ file_path)
           (init false true) sample "/data/in.txt" true
           ("alpha" +:+ PyFile.nl +:+ "beta" +:+ PyFile.nl));
    vm_compute; reflexivity.
Defined.

(** ** The record reader *)

(** On a readable file [get_inrec] yields the lines that sequential calls
    of [linein] return one by one from position 0, before [END_OF_FILE];
    no record holds a line feed or a carriage return; nothing is printed. *)
Theorem get_inrec_yields_the_lines (self : RexxFunctions.t) (w : world)
    (filename : string) (exit_on_eof : bool) (text : string) :
  nodes w !! absolute w filename = Some (Regular Granted text) ->
  cursor (_file_positions self) (absolute w filename) = 0 ->
  exit_on_eof && exit_on_error self = false ->
  exists records : list string,
    Read_infile.get_inrec filename w = (inr records, w) /\
    Forall2 line_of records (PyFile.lines text) /\
    (read_sequentially (S (length records)) self w filename exit_on_eof).1.1
    = map (fun record => Return (VStr record)) records ++ [Return (VInt END_OF_FILE)].
Proof.
  intros Hnode Hc Hflag.
  exists (map (PyStr.rstrip PyFile.LF) (PyFile.lines text)).
  unfold Read_infile.get_inrec. rewrite (open_read_granted _ _ _ Hnode).
  split; [done|]. split.
  - apply Forall2_fmap_l, Forall_Forall2_diag.
    eapply Forall_impl; [apply lines_shape|].
    intros l [body Hbody]. simpl. by rewrite (rstrip_line_of _ _ Hbody).
  - destruct (read_sequentially_from w filename exit_on_eof text (PyFile.lines text)
                Hnode 0%nat self) as (self_end & Hrun & _); [done | by rewrite Hc | done |].
    rewrite length_map, Hrun. simpl. by rewrite map_map.
Qed.

Lemma get_inrec_yields_the_lines_witness :
  let text := "alpha" +:+ PyFile.nl +:+ "beta" +:+ PyFile.nl in
  let self := init false true in
  nodes sample !! absolute sample "/data/in.txt" = Some (Regular Granted text) /\
  cursor (_file_positions self) (absolute sample "/data/in.txt") = 0 /\
  true && exit_on_error self = false /\
  exists records : list string,
    Read_infile.get_inrec "/data/in.txt" sample = (inr records, sample) /\
    Forall2 line_of records (PyFile.lines text) /\
    (read_sequentially (S (length records)) self sample "/data/in.txt" true).1.1
    = map (fun record => Return (VStr record)) records ++ [Return (VInt END_OF_FILE)].
Proof.
  assert (H1 : nodes sample !! absolute sample "/data/in.txt"
               = Some (Regular Granted ("alpha" +:+ PyFile.nl +:+ "beta" +:+ PyFile.nl)))
    by (vm_compute; reflexivity).
  assert (H2 : cursor (_file_positions (init false true))
                 (absolute sample "/data/in.txt") = 0) by (vm_compute; reflexivity).
  split; [exact H1|]. split; [exact H2|]. split; [reflexivity|].
  exact (get_inrec_yields_the_lines (init false true) sample "/data/in.txt" true _
           H1 H2 eq_refl).
Defined.
